(** * cosm-python: the entity store, the JSON encoder and the time codec

    A shallow embedding of [cosm/__init__.py] (the classes [Client], [Base],
    [Feed], [Datastream], [Datapoint], [Trigger] and [JSONEncoder]) together
    with the properties its specification states about them. *)

From Stdlib Require Import ZArith List String Ascii Bool Lia DecimalString.
Import ListNotations.

Local Open Scope string_scope.
Local Open Scope Z_scope.

(** ** Exceptions and results

    Python's exceptions are made explicit: a call either returns a value or
    raises. *)

Inductive exn : Type :=
| AttributeError (class_name name : string)
| KeyError (key : string)
| TypeError
| ValueError
| FormatError.

Inductive result (A : Type) : Type :=
| Ok (a : A)
| Raise (e : exn).

Arguments Ok {A} a.
Arguments Raise {A} e.

Definition rbind {A B : Type} (r : result A) (k : A -> result B) : result B :=
  match r with
  | Ok a => k a
  | Raise e => Raise e
  end.

(** ** datetime

    [datetime.datetime] as the encoder sees it: the calendar fields and the
    optional time zone.  [tzinfo] is [None] for a naive value and
    [Some m] for an aware one whose [utcoffset()] is [m] minutes. *)

Record datetime : Type := mkdatetime {
  year : Z;
  month : Z;
  day : Z;
  hour : Z;
  minute : Z;
  second : Z;
  microsecond : Z;
  tzinfo : option Z
}.

Definition is_leap (y : Z) : bool :=
  (y mod 4 =? 0) && (negb (y mod 100 =? 0) || (y mod 400 =? 0)).

Definition days_in_month (y m : Z) : Z :=
  if m =? 2 then (if is_leap y then 29 else 28)
  else if (m =? 4) || (m =? 6) || (m =? 9) || (m =? 11) then 30
  else 31.

Definition between (lo x hi : Z) : bool := (lo <=? x) && (x <=? hi).

(** The range checks of the [datetime] constructor ([MINYEAR = 1],
    [MAXYEAR = 9999]). *)
Definition fields_ok (y mo d h mi s us : Z) : bool :=
  between 1 y 9999 && between 1 mo 12 && between 1 d (days_in_month y mo) &&
  between 0 h 23 && between 0 mi 59 && between 0 s 59 && between 0 us 999999.

Definition offset_ok (tz : option Z) : bool :=
  match tz with
  | None => true
  | Some m => between (-1439) m 1439
  end.

Definition datetime_ok (t : datetime) : bool :=
  fields_ok (year t) (month t) (day t) (hour t) (minute t) (second t)
            (microsecond t) && offset_ok (tzinfo t).

Definition naive (t : datetime) : Prop := tzinfo t = None.

Definition replace_tzinfo (t : datetime) (tz : option Z) : datetime :=
  mkdatetime (year t) (month t) (day t) (hour t) (minute t) (second t)
             (microsecond t) tz.

(** *** Zero-padded decimal fields

    [fmt_digits w n] is ["%0wd" % n] for a field [0 <= n < 10^w], which is
    what the ranges above guarantee for every field [isoformat] prints. *)

Definition digit_char (d : Z) : ascii := ascii_of_nat (48 + Z.to_nat d).

Fixpoint fmt_digits (w : nat) (n : Z) : string :=
  match w with
  | O => ""
  | S w' => String (digit_char ((n / 10 ^ Z.of_nat w') mod 10)) (fmt_digits w' n)
  end.

(** *** datetime.isoformat *)

Definition format_time (hh mm ss us : Z) : string :=
  fmt_digits 2 hh ++ ":" ++ fmt_digits 2 mm ++ ":" ++ fmt_digits 2 ss ++
  (if us =? 0 then "" else "." ++ fmt_digits 6 us).

Definition format_offset (tz : option Z) : string :=
  match tz with
  | None => ""
  | Some m =>
      (if m <? 0 then "-" else "+") ++
      fmt_digits 2 (Z.abs m / 60) ++ ":" ++ fmt_digits 2 (Z.abs m mod 60)
  end.

Definition format_date (y mo d : Z) : string :=
  fmt_digits 4 y ++ "-" ++ fmt_digits 2 mo ++ "-" ++ fmt_digits 2 d.

(** The calendar fields alone, as [isoformat] lays them out. *)
Definition format_calendar (t : datetime) : string :=
  format_date (year t) (month t) (day t) ++ "T" ++
  format_time (hour t) (minute t) (second t) (microsecond t).

Definition isoformat (t : datetime) : string :=
  format_calendar t ++ format_offset (tzinfo t).

Definition starts_with (c : ascii) (s : string) : bool :=
  match s with
  | String c' _ => Ascii.eqb c' c
  | EmptyString => false
  end.

(** ** TimeCodec *)

Module TimeCodec.

(** The wire rendering [JSONEncoder.default] applies to a [datetime]:
    [obj.isoformat() + 'Z']. *)
Definition encode (t : datetime) : string := isoformat t ++ "Z".

(** *** Reading the fields back *)

Definition digit_val (c : ascii) : option Z :=
  let n := Z.of_nat (nat_of_ascii c) in
  if between 48 n 57 then Some (n - 48) else None.

Fixpoint take_digits (w : nat) (acc : Z) (s : string) : option (Z * string) :=
  match w with
  | O => Some (acc, s)
  | S w' =>
      match s with
      | String c s' =>
          match digit_val c with
          | Some d => take_digits w' (acc * 10 + d) s'
          | None => None
          end
      | EmptyString => None
      end
  end.

Definition expect (c : ascii) (s : string) : option string :=
  match s with
  | String c' s' => if Ascii.eqb c c' then Some s' else None
  | EmptyString => None
  end.

Definition obind {A B : Type} (o : option A) (k : A -> option B) : option B :=
  match o with
  | Some a => k a
  | None => None
  end.

Notation "' p <- o ;; k" := (obind o (fun p => k))
  (at level 60, p pattern, o at next level, right associativity).

(** The optional fraction: a dot and six digits, or nothing. *)
Definition take_fraction (s : string) : option (Z * string) :=
  match s with
  | String c s' => if Ascii.eqb c "." then take_digits 6 0 s' else Some (0, s)
  | EmptyString => Some (0, s)
  end.

(** [take_calendar s] reads [YYYY-MM-DDTHH:MM:SS[.ffffff]] off the front of
    [s] and returns the seven fields with the rest of the string. *)
Definition take_calendar (s : string)
  : option (Z * Z * Z * Z * Z * Z * Z * string) :=
  ' (y, s) <- take_digits 4 0 s ;;
  ' s <- expect "-" s ;;
  ' (mo, s) <- take_digits 2 0 s ;;
  ' s <- expect "-" s ;;
  ' (d, s) <- take_digits 2 0 s ;;
  ' s <- expect "T" s ;;
  ' (h, s) <- take_digits 2 0 s ;;
  ' s <- expect ":" s ;;
  ' (mi, s) <- take_digits 2 0 s ;;
  ' s <- expect ":" s ;;
  ' (sec, s) <- take_digits 2 0 s ;;
  ' (us, s) <- take_fraction s ;;
  Some (y, mo, d, h, mi, sec, us, s).

(** Modelled from the spec: [cosm/api.py], which holds the decoder, is not
    among the sources.  The specification says of [decode]: "parse the
    calendar fields and discard the trailing marker.  Must tolerate the
    response format which may include sub-second precision of 6 digits.
    Fails with a FormatError if the string does not match the expected
    pattern."  The marker is the literal [Z], not a general offset, and the
    value returned is naive. *)
Definition decode (s : string) : result datetime :=
  match take_calendar s with
  | Some (y, mo, d, h, mi, sec, us, "Z") =>
      if fields_ok y mo d h mi sec us
      then Ok (mkdatetime y mo d h mi sec us None)
      else Raise FormatError
  | _ => Raise FormatError
  end.

End TimeCodec.


(** ** Python values

    The values an entity can hold and the encoder can meet.  A [dict] with
    string keys is an association list in insertion order, the order in
    which [json.dumps] writes its items.  An entity carries its class, its
    identity (as [id()] gives it), its store [_data] and the rest of its
    instance dictionary.  Managers live in [cosm/api.py]; here a manager is
    its class and the identity of the object it was built on.  [VObject] is
    any other object, with what its [__getstate__] returns when it has one,
    and [VBound] a method or special attribute reached through the class.
    Floats are left out.  A call such as [self.__getstate__()] is the
    method of the class: the instance dictionaries considered do not rebind
    the methods. *)

Scheme All for list.
Scheme All for prod.
Scheme All for option.

Inductive pyclass : Type := cls_Feed | cls_Datastream | cls_Datapoint | cls_Trigger.

Inductive manager_class : Type :=
| FeedsManager | DatastreamsManager | DatapointsManager | TriggersManager.

Inductive value : Type :=
| VNone
| VBool (b : bool)
| VInt (n : Z)
| VStr (s : string)
| VDatetime (t : datetime)
| VList (l : list value)
| VDict (d : list (string * value))
| VEntity (c : pyclass) (oid : N) (data : list (string * value))
          (attrs : list (string * value))
| VManager (k : manager_class) (parent : N)
| VObject (state : option value)
| VBound (name : string).

(** *** dict *)

Section Dict.
Context {V : Type}.

Definition dict_of : Type := list (string * V).

Fixpoint dict_get (k : string) (d : dict_of) : option V :=
  match d with
  | [] => None
  | (k', v) :: d' => if String.eqb k k' then Some v else dict_get k d'
  end.

(** [d[k] = v]: an existing key keeps its place, a new one goes last. *)
Fixpoint dict_set (k : string) (v : V) (d : dict_of) : dict_of :=
  match d with
  | [] => [(k, v)]
  | (k', v') :: d' =>
      if String.eqb k k' then (k', v) :: d' else (k', v') :: dict_set k v d'
  end.

Fixpoint dict_del (k : string) (d : dict_of) : dict_of :=
  match d with
  | [] => []
  | (k', v') :: d' =>
      if String.eqb k k' then dict_del k d' else (k', v') :: dict_del k d'
  end.

Definition dict_has (k : string) (d : dict_of) : bool :=
  match dict_get k d with Some _ => true | None => false end.

Definition dict_keys (d : dict_of) : list string := map fst d.

(** [d.update(kw)] *)
Definition dict_update (d kw : dict_of) : dict_of :=
  fold_left (fun acc kv => dict_set (fst kv) (snd kv) acc) kw d.

(** [d.pop(k)] *)
Definition dict_pop (k : string) (d : dict_of) : result (V * dict_of) :=
  match dict_get k d with
  | Some v => Ok (v, dict_del k d)
  | None => Raise (KeyError k)
  end.

End Dict.

Definition dict : Type := list (string * value).

Record entity : Type := mkentity {
  cls : pyclass;
  oid : N;
  _data : dict;
  attrs : dict
}.

Definition VEntity_of (e : entity) : value :=
  VEntity (cls e) (oid e) (_data e) (attrs e).

Definition class_name (c : pyclass) : string :=
  match c with
  | cls_Feed => "Feed"
  | cls_Datastream => "Datastream"
  | cls_Datapoint => "Datapoint"
  | cls_Trigger => "Trigger"
  end.

Definition type_name (v : value) : string :=
  match v with
  | VNone => "NoneType"
  | VBool _ => "bool"
  | VInt _ => "int"
  | VStr _ => "str"
  | VDatetime _ => "datetime"
  | VList _ => "list"
  | VDict _ => "dict"
  | VEntity c _ _ _ => class_name c
  | VManager FeedsManager _ => "FeedsManager"
  | VManager DatastreamsManager _ => "DatastreamsManager"
  | VManager DatapointsManager _ => "DatapointsManager"
  | VManager TriggersManager _ => "TriggersManager"
  | VObject _ => "object"
  | VBound _ => "method"
  end.

(** [bool(v)].  Neither [Base] nor its subclasses define [__bool__] or
    [__len__], so an entity is true; so is any other object that is not a
    container. *)
Definition truthy (v : value) : bool :=
  match v with
  | VNone => false
  | VBool b => b
  | VInt n => negb (n =? 0)
  | VStr s => negb (String.eqb s "")
  | VList l => match l with [] => false | _ => true end
  | VDict d => match d with [] => false | _ => true end
  | _ => true
  end.

Definition is_None (v : value) : bool :=
  match v with VNone => true | _ => false end.

(** ** The world of a method call

    A method runs on its receiver [self], which it may change, and may call
    the manager the entity is bound to.  The managers' methods are in
    [cosm/api.py]; a call to one is recorded with its arguments. *)

Inductive call : Type :=
| call_update (manager : value) (identity : value) (fields : dict)
| call_delete (manager : value) (identity : value)
| call_coerce_datastreams (manager : value) (feed : N) (datastreams : value).

Record world : Type := mkworld {
  self : entity;
  calls : list call
}.

Definition M (A : Type) : Type := world -> result A * world.

Definition ret {A : Type} (a : A) : M A := fun w => (Ok a, w).

Definition raise {A : Type} (e : exn) : M A := fun w => (Raise e, w).

Definition bind {A B : Type} (m : M A) (k : A -> M B) : M B :=
  fun w =>
    match m w with
    | (Ok a, w') => k a w'
    | (Raise e, w') => (Raise e, w')
    end.

Declare Scope py_scope.
Delimit Scope py_scope with py.
Notation "x <- m ;; k" := (bind m (fun x => k))
  (at level 61, m at next level, right associativity) : py_scope.
Notation "m ;; k" := (bind m (fun _ => k))
  (at level 61, right associativity) : py_scope.

Definition get_self : M entity := fun w => (Ok (self w), w).

Definition put_self (e : entity) : M unit :=
  fun w => (Ok tt, mkworld e (calls w)).

Definition lift {A : Type} (r : result A) : M A := fun w => (r, w).

Definition record (c : call) : M unit :=
  fun w => (Ok tt, mkworld (self w) (calls w ++ [c])%list).

(** [try: m except AttributeError: handler] as [getattr(obj, name, default)]
    does it. *)
Definition or_default {A : Type} (m : M A) (default : A) : M A :=
  fun w =>
    match m w with
    | (Raise (AttributeError _ _), w') => (Ok default, w')
    | r => r
    end.

Local Open Scope py_scope.

(** ** Classes

    What each class declares, in the order of the source, and what every
    class inherits from [object] (the names CPython 3 lists for
    [dir(object)] and for a class with an instance dictionary). *)

Inductive member : Type :=
| property      (* a data descriptor with getter and setter *)
| method        (* a function of the class *)
| class_None.   (* a class attribute bound to [None] *)

Definition Base_members : list (string * member) :=
  [("__init__", method); ("__getstate__", method);
   ("__getattr__", method); ("__setattr__", method)].

Definition declared (c : pyclass) : list (string * member) :=
  match c with
  | cls_Feed =>
      [("_datastreams", class_None); ("__init__", method);
       ("datastreams", property); ("update", method); ("delete", method)]
  | cls_Datastream =>
      [("_datapoints", class_None); ("__init__", method);
       ("datapoints", property); ("update", method); ("delete", method)]
  | cls_Datapoint =>
      [("__init__", method); ("update", method); ("delete", method)]
  | cls_Trigger => [("__init__", method)]
  end.

Definition object_dir : list string :=
  ["__class__"; "__delattr__"; "__dict__"; "__dir__"; "__doc__"; "__eq__";
   "__format__"; "__ge__"; "__getattribute__"; "__gt__"; "__hash__";
   "__init__"; "__le__"; "__lt__"; "__module__"; "__ne__"; "__new__";
   "__reduce__"; "__reduce_ex__"; "__repr__"; "__setattr__"; "__sizeof__";
   "__str__"; "__subclasshook__"; "__weakref__"].

(** The class attribute [name] resolves to, along the method resolution
    order: the class, [Base], [object]. *)
Definition class_lookup (c : pyclass) (name : string) : option member :=
  match dict_get name (declared c) with
  | Some m => Some m
  | None =>
      match dict_get name Base_members with
      | Some m => Some m
      | None =>
          if existsb (String.eqb name) object_dir then Some method else None
      end
  end.

(** [name in dir(c)] *)
Definition in_dir (c : pyclass) (name : string) : bool :=
  match class_lookup c name with Some _ => true | None => false end.

Definition startswith (s p : string) : bool := String.prefix p s.

(** ** Base *)

(** [Base.__getstate__]: a new [dict] built from [self._data], that is, a
    copy of the store. *)
Definition Base_getstate : M dict :=
  e <- get_self ;; ret (_data e).

(** [Base.__getattr__], the hook the interpreter calls when the ordinary
    lookup has found nothing. *)
Definition Base_getattr (name : string) : M value :=
  e <- get_self ;;
  match dict_get name (_data e) with
  | Some v => ret v
  | None => raise (AttributeError (class_name (cls e)) name)
  end.

(** The ordinary lookup past the data descriptors: the instance dictionary,
    then the class, then the hook. *)
Definition lookup_attr (name : string) : M value :=
  e <- get_self ;;
  if String.eqb name "_data" then ret (VDict (_data e)) else
  match dict_get name (attrs e) with
  | Some v => ret v
  | None =>
      match class_lookup (cls e) name with
      | Some class_None => ret VNone
      | Some _ => ret (VBound name)
      | None => Base_getattr name
      end
  end.

(** [object.__setattr__] for a name that is no data descriptor: the
    instance dictionary takes it.  [_data] is the store itself, which every
    constructor makes a [dict]; binding it to anything else is outside the
    model and raises here. *)
Definition set_instance_attr (name : string) (v : value) : M unit :=
  e <- get_self ;;
  if String.eqb name "_data" then
    match v with
    | VDict d => put_self (mkentity (cls e) (oid e) d (attrs e))
    | _ => raise TypeError
    end
  else put_self (mkentity (cls e) (oid e) (_data e) (dict_set name v (attrs e))).

(** [self._data[name] = v] *)
Definition set_item (name : string) (v : value) : M unit :=
  e <- get_self ;;
  put_self (mkentity (cls e) (oid e) (dict_set name v (_data e)) (attrs e)).

(** ** The nested-collection properties and attribute access *)

(** [Feed.datastreams], the setter.  [_manager] is no property, so
    [getattr(self, '_manager', None)] is the ordinary lookup. *)
Definition Feed_datastreams_setter (datastreams : value) : M unit :=
  manager <- or_default (lookup_attr "_manager") VNone ;;
  (if truthy manager then
     e <- get_self ;;
     record (call_coerce_datastreams manager (oid e) datastreams)
   else ret tt) ;;
  set_item "datastreams" datastreams.

(** [Datastream.datapoints], the setter. *)
Definition Datastream_datapoints_setter (datapoints : value) : M unit :=
  set_item "datapoints" datapoints.

(** [object.__setattr__]: the property's setter when the class has one for
    the name, the instance dictionary otherwise. *)
Definition object_setattr (name : string) (v : value) : M unit :=
  e <- get_self ;;
  match cls e, class_lookup (cls e) name with
  | cls_Feed, Some property => Feed_datastreams_setter v
  | cls_Datastream, Some property => Datastream_datapoints_setter v
  | _, _ => set_instance_attr name v
  end.

(** [Base.__setattr__] *)
Definition Base_setattr (name : string) (v : value) : M unit :=
  e <- get_self ;;
  if negb (startswith name "_") && negb (in_dir (cls e) name)
  then set_item name v
  else object_setattr name v.

(** [Feed.datastreams], the getter.  [_datastreams] is no property, so
    [self._datastreams] is the ordinary lookup. *)
Definition Feed_datastreams : M value :=
  cached <- lookup_attr "_datastreams" ;;
  (if is_None cached then
     e <- get_self ;;
     Base_setattr "_datastreams" (VManager DatastreamsManager (oid e))
   else ret tt) ;;
  lookup_attr "_datastreams".

(** [Datastream.datapoints], the getter. *)
Definition Datastream_datapoints : M value :=
  cached <- lookup_attr "_datapoints" ;;
  (if is_None cached then
     e <- get_self ;;
     Base_setattr "_datapoints" (VManager DatapointsManager (oid e))
   else ret tt) ;;
  lookup_attr "_datapoints".

(** [self.name]: a property of the class first, then the ordinary lookup. *)
Definition getattr (name : string) : M value :=
  e <- get_self ;;
  match cls e, class_lookup (cls e) name with
  | cls_Feed, Some property => Feed_datastreams
  | cls_Datastream, Some property => Datastream_datapoints
  | _, _ => lookup_attr name
  end.

(** [self._data.update(kwargs)] *)
Definition update_items (kwargs : dict) : M unit :=
  e <- get_self ;;
  put_self (mkentity (cls e) (oid e) (dict_update (_data e) kwargs) (attrs e)).

(** ** Construction

    [construct c i init] is the call [c(...)]: a new instance of identity
    [i], then [__init__] on it. *)

Definition construct (c : pyclass) (i : N) (init : M unit) : result entity :=
  match init (mkworld (mkentity c i [] []) []) with
  | (Ok _, w) => Ok (self w)
  | (Raise e, _) => Raise e
  end.

(** [Base.__init__] *)
Definition Base_init : M unit := Base_setattr "_data" (VDict []).

(** [Feed.__init__(self, title, **kwargs)] *)
Definition Feed_init (title : value) (kwargs : dict) : M unit :=
  Base_init ;;
  set_item "title" title ;;
  match dict_pop "datastreams" kwargs with
  | Ok (datastreams, kwargs') =>
      Base_setattr "datastreams" datastreams ;; update_items kwargs'
  | Raise _ => update_items kwargs
  end.

(** [Datastream.__init__(self, id, **kwargs)] *)
Definition Datastream_init (id : value) (kwargs : dict) : M unit :=
  Base_init ;;
  set_item "id" id ;;
  match dict_pop "datapoints" kwargs with
  | Ok (datapoints, kwargs') =>
      Base_setattr "datapoints" datapoints ;; update_items kwargs'
  | Raise _ => update_items kwargs
  end.

(** [Datapoint.__init__(self, at, value)] *)
Definition Datapoint_init (at_ v : value) : M unit :=
  Base_init ;;
  set_item "at" at_ ;;
  set_item "value" v.

(** [Trigger.__init__(self, environment_id, stream_id, url, trigger_type,
    threshold_value=None)] *)
Definition Trigger_init (environment_id stream_id url trigger_type
                         threshold_value : value) : M unit :=
  Base_setattr "_data"
    (VDict [("environment_id", environment_id); ("stream_id", stream_id);
            ("url", url); ("trigger_type", trigger_type)]) ;;
  if negb (is_None threshold_value)
  then set_item "threshold_value" threshold_value
  else ret tt.

(** A keyword argument may not repeat a named parameter: the interpreter
    raises [TypeError] before [__init__] runs. *)
Definition new_Feed (i : N) (title : value) (kwargs : dict) : result entity :=
  if dict_has "title" kwargs then Raise TypeError
  else construct cls_Feed i (Feed_init title kwargs).

Definition new_Datastream (i : N) (id : value) (kwargs : dict)
  : result entity :=
  if dict_has "id" kwargs then Raise TypeError
  else construct cls_Datastream i (Datastream_init id kwargs).

Definition new_Datapoint (i : N) (at_ v : value) : result entity :=
  construct cls_Datapoint i (Datapoint_init at_ v).

Definition new_Trigger (i : N) (environment_id stream_id url trigger_type
                        threshold_value : value) : result entity :=
  construct cls_Trigger i
    (Trigger_init environment_id stream_id url trigger_type threshold_value).

(** ** update and delete

    [self._manager.update(...)] evaluates the receiver, then its method,
    then the arguments from left to right, and only then calls.  The method
    is found when the receiver is a manager. *)

Definition method_of (receiver : value) (name : string) : M unit :=
  match receiver with
  | VManager _ _ => ret tt
  | _ => raise (AttributeError (type_name receiver) name)
  end.

(** [Feed.update] *)
Definition Feed_update : M unit :=
  manager <- getattr "_manager" ;;
  method_of manager "update" ;;
  identity <- getattr "feed" ;;
  state <- Base_getstate ;;
  record (call_update manager identity state).

(** [Feed.delete] *)
Definition Feed_delete : M unit :=
  manager <- getattr "_manager" ;;
  method_of manager "delete" ;;
  identity <- getattr "feed" ;;
  record (call_delete manager identity).

(** [Datastream.update] *)
Definition Datastream_update : M unit :=
  state <- Base_getstate ;;
  manager <- getattr "_manager" ;;
  method_of manager "update" ;;
  identity <- getattr "id" ;;
  record (call_update manager identity state).

(** [Datastream.delete] *)
Definition Datastream_delete : M unit :=
  manager <- getattr "_manager" ;;
  method_of manager "delete" ;;
  identity <- getattr "id" ;;
  record (call_delete manager identity).

(** [Datapoint.update]: [state.pop('at')] is evaluated before [**state] is
    unpacked, so the fields passed are the state without [at]. *)
Definition Datapoint_update : M unit :=
  state <- Base_getstate ;;
  manager <- getattr "_manager" ;;
  method_of manager "update" ;;
  popped <- lift (dict_pop "at" state) ;;
  record (call_update manager (fst popped) (snd popped)).

(** [Datapoint.delete] *)
Definition Datapoint_delete : M unit :=
  manager <- getattr "_manager" ;;
  method_of manager "delete" ;;
  identity <- getattr "at" ;;
  record (call_delete manager identity).

(** ** JSONEncoder *)

(** The value tree [json.dumps] writes out.  Its text is the [json]
    module's business. *)
Inductive json : Type :=
| JNull
| JBool (b : bool)
| JNumber (n : Z)
| JString (s : string)
| JArray (items : list json)
| JObject (items : list (string * json)).

(** [JSONEncoder.default]: what the encoder is handed for an object it
    cannot write itself.  [json.JSONEncoder.default] raises [TypeError]. *)
Definition JSONEncoder_default (obj : value) : result value :=
  match obj with
  | VDatetime t => Ok (VStr (TimeCodec.encode t))
  | VEntity _ _ data _ => Ok (VDict data)
  | VObject (Some state) => Ok state
  | _ => Raise TypeError
  end.

Definition rmap {A B : Type} (f : A -> B) (r : result A) : result B :=
  rbind r (fun a => Ok (f a)).

(** [json.dumps(data, cls=JSONEncoder)]: the values the [json] module
    writes itself, containers element by element, and for anything else
    the encoding of what [default] returns. *)
Fixpoint dumps (o : value) : result json :=
  let items := fix items (d : list (string * value))
      : result (list (string * json)) :=
    match d with
    | [] => Ok []
    | (k, v) :: d' =>
        rbind (dumps v) (fun j =>
        rbind (items d') (fun js => Ok ((k, j) :: js)))
    end in
  match o with
  | VNone => Ok JNull
  | VBool b => Ok (JBool b)
  | VInt n => Ok (JNumber n)
  | VStr s => Ok (JString s)
  | VList l =>
      rmap JArray
        ((fix elements (l : list value) : result (list json) :=
            match l with
            | [] => Ok []
            | v :: l' =>
                rbind (dumps v) (fun j =>
                rbind (elements l') (fun js => Ok (j :: js)))
            end) l)
  | VDict d => rmap JObject (items d)
  | VDatetime t => Ok (JString (TimeCodec.encode t))
  | VEntity _ _ data _ => rmap JObject (items data)
  | VObject (Some state) => dumps state
  | VObject None | VManager _ _ | VBound _ => Raise TypeError
  end.

(** The two loops of [dumps], by name. *)
Definition dumps_items : list (string * value) -> result (list (string * json)) :=
  fix items (d : list (string * value)) : result (list (string * json)) :=
    match d with
    | [] => Ok []
    | (k, v) :: d' =>
        rbind (dumps v) (fun j =>
        rbind (items d') (fun js => Ok ((k, j) :: js)))
    end.

Definition dumps_elements : list value -> result (list json) :=
  fix elements (l : list value) : result (list json) :=
    match l with
    | [] => Ok []
    | v :: l' =>
        rbind (dumps v) (fun j =>
        rbind (elements l') (fun js => Ok (j :: js)))
    end.

#[local] Set Warnings "-register-all".

(** The serialization rule of the specification, as a relation: an entity
    gives the mapping of its store, a collection is serialized member by
    member, a timestamp goes through the time codec, and every other value
    of the data model passes through unchanged. *)
Inductive serializes : value -> json -> Prop :=
| ser_None : serializes VNone JNull
| ser_bool (b : bool) : serializes (VBool b) (JBool b)
| ser_int (n : Z) : serializes (VInt n) (JNumber n)
| ser_str (s : string) : serializes (VStr s) (JString s)
| ser_datetime (t : datetime) :
    serializes (VDatetime t) (JString (TimeCodec.encode t))
| ser_list (l : list value) (js : list json) :
    Forall2 serializes l js -> serializes (VList l) (JArray js)
| ser_dict (d : dict) (items : list (string * json)) :
    Forall2 (fun kv kj => fst kv = fst kj /\ serializes (snd kv) (snd kj))
            d items ->
    serializes (VDict d) (JObject items)
| ser_entity (c : pyclass) (i : N) (data attrs : dict)
             (items : list (string * json)) :
    Forall2 (fun kv kj => fst kv = fst kj /\ serializes (snd kv) (snd kj))
            data items ->
    serializes (VEntity c i data attrs) (JObject items)
| ser_object (state : value) (j : json) :
    serializes state j -> serializes (VObject (Some state)) j.

Definition item_serializes (kv : string * value) (kj : string * json) : Prop :=
  fst kv = fst kj /\ serializes (snd kv) (snd kj).

(** The values of the data model: scalars, timestamps, entities, and lists
    and mappings of them. *)
Fixpoint in_data_model (v : value) : bool :=
  match v with
  | VNone | VBool _ | VInt _ | VStr _ | VDatetime _ => true
  | VList l => forallb in_data_model l
  | VDict d => forallb (fun kv => in_data_model (snd kv)) d
  | VEntity _ _ data _ => forallb (fun kv => in_data_model (snd kv)) data
  | VManager _ _ | VObject _ | VBound _ => false
  end.

(** ** Worlds after an assignment *)

(** The handle a nested-collection property builds on [e]:
    [DatastreamsManager(self)], [DatapointsManager(self)]. *)
Definition manager_of (k : manager_class) (e : entity) : value :=
  VManager k (oid e).

(** [w] once [name] is bound to [v] in the instance dictionary. *)
Definition with_attr (name : string) (v : value) (w : world) : world :=
  mkworld (mkentity (cls (self w)) (oid (self w)) (_data (self w))
                    (dict_set name v (attrs (self w))))
          (calls w).

(** [w] once [name] is bound to [v] in the store. *)
Definition with_item (name : string) (v : value) (w : world) : world :=
  mkworld (mkentity (cls (self w)) (oid (self w))
                    (dict_set name v (_data (self w))) (attrs (self w)))
          (calls w).

(** [getattr(self, '_manager', None)]: the instance dictionary, then the
    store through the hook, then the default. *)
Definition bound_manager (e : entity) : value :=
  match dict_get "_manager" (attrs e) with
  | Some v => v
  | None =>
      match dict_get "_manager" (_data e) with
      | Some v => v
      | None => VNone
      end
  end.

(** The nested-collection property of a class: the field, the attribute
    that caches its handle, and the manager class of the handle. *)
Definition nested_collection (c : pyclass)
  : option (string * string * manager_class) :=
  match c with
  | cls_Feed => Some ("datastreams", "_datastreams", DatastreamsManager)
  | cls_Datastream => Some ("datapoints", "_datapoints", DatapointsManager)
  | _ => None
  end.

Definition with_call (c : call) (w : world) : world :=
  mkworld (self w) (calls w ++ [c])%list.

(** ** Structural names

    The names the ordinary lookup resolves on [e] without the hook: the
    store attribute, the instance dictionary, the class. *)
Definition structural (e : entity) (name : string) : bool :=
  String.eqb name "_data" || dict_has name (attrs e) || in_dir (cls e) name.

(** What [Base.__setattr__] can put in the instance dictionary: names that
    start with an underscore or that the class has. *)
Definition instance_ok (e : entity) : bool :=
  forallb (fun k => startswith k "_" || in_dir (cls e) k) (dict_keys (attrs e)).

(** ** The managers' requests *)

Module Manager.

(** Modelled from the spec: the managers are in [cosm/api.py], which is not
    among the sources.  "Item URLs are built by joining the collection URL,
    a path separator, and the identity value rendered as a string
    (timestamps via TimeCodec.encode, everything else via its natural
    string form)." *)
Definition identity_string (identity : value) : option string :=
  match identity with
  | VDatetime t => Some (TimeCodec.encode t)
  | VStr s => Some s
  | VInt n => Some (NilZero.string_of_int (Z.to_int n))
  | _ => None
  end.

Definition item_url (collection_url : string) (identity : value)
  : option string :=
  option_map (fun s => collection_url ++ "/" ++ s) (identity_string identity).

(** Modelled from the spec: "Datapoints: collection
    /v2/feeds/{feed_id}/datastreams/{ds_id}/datapoints, item suffixed with
    /{at} using TimeCodec encoding." *)
Definition datapoints_collection_url (feed_id ds_id : value) : option string :=
  match identity_string feed_id, identity_string ds_id with
  | Some f, Some d => Some ("/v2/feeds/" ++ f ++ "/datastreams/" ++ d ++ "/datapoints")
  | _, _ => None
  end.

Record api_request : Type := mkapi_request {
  api_method : string;
  api_url : string;
  api_body : option dict
}.

(** Modelled from the spec: "update(identity, **fields): PUT to the item
    URL, body = serialized partial fields only" and "delete(identity):
    DELETE to the item URL". *)
Definition request_of (collection_url : string) (c : call)
  : option api_request :=
  match c with
  | call_update _ identity fields =>
      option_map (fun u => mkapi_request "PUT" u (Some fields))
                 (item_url collection_url identity)
  | call_delete _ identity =>
      option_map (fun u => mkapi_request "DELETE" u None)
                 (item_url collection_url identity)
  | call_coerce_datastreams _ _ _ => None
  end.

End Manager.

(** ** urljoin

    [urljoin] of the standard library ([urlparse] in Python 2,
    [urllib.parse] in Python 3), written after CPython 3.5 to 3.8 for
    [str] arguments.  The parse cache is left out. *)

Module urllib_parse.

Definition uses_relative : list string :=
  [""; "ftp"; "http"; "gopher"; "nntp"; "imap"; "wais"; "file"; "https";
   "shttp"; "mms"; "prospero"; "rtsp"; "rtspu"; "sftp"; "svn"; "svn+ssh";
   "ws"; "wss"].

Definition uses_netloc : list string :=
  [""; "ftp"; "http"; "gopher"; "nntp"; "telnet"; "imap"; "wais"; "file";
   "mms"; "https"; "shttp"; "snews"; "prospero"; "rtsp"; "rtspu"; "rsync";
   "svn"; "svn+ssh"; "sftp"; "nfs"; "git"; "git+ssh"; "ws"; "wss"].

Definition uses_params : list string :=
  [""; "ftp"; "hdl"; "prospero"; "http"; "imap"; "https"; "shttp"; "rtsp";
   "rtspu"; "sip"; "sips"; "mms"; "sftp"; "tel"].

Definition mem (s : string) (l : list string) : bool :=
  existsb (String.eqb s) l.

Definition code (c : ascii) : nat := nat_of_ascii c.

Definition is_upper (c : ascii) : bool :=
  (Nat.leb 65 (code c) && Nat.leb (code c) 90)%bool.

Definition is_lower (c : ascii) : bool :=
  (Nat.leb 97 (code c) && Nat.leb (code c) 122)%bool.

Definition is_digit (c : ascii) : bool :=
  (Nat.leb 48 (code c) && Nat.leb (code c) 57)%bool.

(** [c in scheme_chars]: letters, digits, [+], [-] and [.]. *)
Definition is_scheme_char (c : ascii) : bool :=
  (is_lower c || is_upper c || is_digit c ||
   Ascii.eqb c "+" || Ascii.eqb c "-" || Ascii.eqb c ".")%bool.

Definition lower_char (c : ascii) : ascii :=
  if is_upper c then ascii_of_nat (code c + 32) else c.

Fixpoint all_chars (p : ascii -> bool) (s : string) : bool :=
  match s with
  | EmptyString => true
  | String c s' => (p c && all_chars p s')%bool
  end.

Fixpoint lower (s : string) : string :=
  match s with
  | EmptyString => EmptyString
  | String c s' => String (lower_char c) (lower s')
  end.

(** [s.split(c, 1)] when [c] occurs in [s]: what is before its first
    occurrence and what is after. *)
Fixpoint split1 (c : ascii) (s : string) : option (string * string) :=
  match s with
  | EmptyString => None
  | String c' s' =>
      if Ascii.eqb c' c then Some (EmptyString, s')
      else match split1 c s' with
           | Some (a, b) => Some (String c' a, b)
           | None => None
           end
  end.

(** [s.split(c)] *)
Fixpoint split (c : ascii) (s : string) : list string :=
  match s with
  | EmptyString => [EmptyString]
  | String c' s' =>
      match split c s' with
      | seg :: segs =>
          if Ascii.eqb c' c then EmptyString :: seg :: segs
          else String c' seg :: segs
      | [] => [String c' EmptyString]
      end
  end.

(** [c.join(l)] *)
Fixpoint join (c : ascii) (l : list string) : string :=
  match l with
  | [] => EmptyString
  | [seg] => seg
  | seg :: l' => seg ++ String c (join c l')
  end.

(** The longest prefix free of [/], [?] and [#], and the rest. *)
Fixpoint span_netloc (s : string) : string * string :=
  match s with
  | EmptyString => (EmptyString, EmptyString)
  | String c s' =>
      if (Ascii.eqb c "/" || Ascii.eqb c "?" || Ascii.eqb c "#")%bool
      then (EmptyString, s)
      else let (a, b) := span_netloc s' in (String c a, b)
  end.

Fixpoint contains (c : ascii) (s : string) : bool :=
  match s with
  | EmptyString => false
  | String c' s' => (Ascii.eqb c' c || contains c s')%bool
  end.

Record SplitResult : Type := mkSplitResult {
  sr_scheme : string;
  sr_netloc : string;
  sr_path : string;
  sr_query : string;
  sr_fragment : string
}.

Record ParseResult : Type := mkParseResult {
  scheme : string;
  netloc : string;
  path : string;
  params : string;
  query : string;
  fragment : string
}.

(** The part of [urlsplit] after the scheme: network location, fragment,
    query.  An unmatched square bracket in the network location raises
    [ValueError]. *)
Definition split_rest (sch url : string) : result SplitResult :=
  let (nl, url1) :=
    match url with
    | String "/" (String "/" rest) => span_netloc rest
    | _ => (EmptyString, url)
    end in
  if (contains "[" nl && negb (contains "]" nl) ||
      contains "]" nl && negb (contains "[" nl))%bool
  then Raise ValueError
  else
    let (url2, frag) :=
      match split1 "#" url1 with
      | Some (a, b) => (a, b)
      | None => (url1, EmptyString)
      end in
    let (url3, qry) :=
      match split1 "?" url2 with
      | Some (a, b) => (a, b)
      | None => (url2, EmptyString)
      end in
    Ok (mkSplitResult sch nl url3 qry frag).

(** The scheme [urlsplit] finds in [url], with what follows its colon:
    a non-empty run of scheme characters before the first colon, unless
    what follows is a port number. *)
Definition split_scheme (url : string) : option (string * string) :=
  match split1 ":" url with
  | Some (EmptyString, _) => None
  | Some (before, rest) =>
      if String.eqb before "http" then Some ("http", rest)
      else if all_chars is_scheme_char before then
        if (String.eqb rest "" || negb (all_chars is_digit rest))%bool
        then Some (lower before, rest)
        else None
      else None
  | None => None
  end.

(** [urlsplit(url, scheme)] *)
Definition urlsplit (url default_scheme : string) : result SplitResult :=
  match split_scheme url with
  | Some (sch, rest) => split_rest sch rest
  | None => split_rest default_scheme url
  end.

(** What comes after the last [c] of [s], with what precedes it, that [c]
    included; [None] when there is no [c]. *)
Fixpoint rsplit_last (c : ascii) (s : string) : option (string * string) :=
  match s with
  | EmptyString => None
  | String c' s' =>
      match rsplit_last c s' with
      | Some (a, b) => Some (String c' a, b)
      | None =>
          if Ascii.eqb c' c then Some (String c' EmptyString, s') else None
      end
  end.

(** [_splitparams] *)
Definition splitparams (url : string) : string * string :=
  match rsplit_last "/" url with
  | Some (head, tail) =>
      match split1 ";" tail with
      | Some (a, b) => (head ++ a, b)
      | None => (url, EmptyString)
      end
  | None =>
      match split1 ";" url with
      | Some (a, b) => (a, b)
      | None => (url, EmptyString)
      end
  end.

(** [urlparse(url, scheme)] *)
Definition urlparse (url default_scheme : string) : result ParseResult :=
  rbind (urlsplit url default_scheme) (fun r =>
    let (p, prm) :=
      if (mem (sr_scheme r) uses_params && contains ";" (sr_path r))%bool
      then splitparams (sr_path r)
      else (sr_path r, EmptyString) in
    Ok (mkParseResult (sr_scheme r) (sr_netloc r) p prm (sr_query r)
                      (sr_fragment r))).

Definition nonempty (s : string) : bool := negb (String.eqb s "").

Definition starts2 (s : string) : bool :=
  match s with
  | String "/" (String "/" _) => true
  | _ => false
  end.

Definition starts1 (s : string) : bool :=
  match s with
  | String "/" _ => true
  | _ => false
  end.

(** [urlunsplit] *)
Definition urlunsplit (sch nl url qry frag : string) : string :=
  let url :=
    if (nonempty nl ||
        (nonempty sch && mem sch uses_netloc && negb (starts2 url)))%bool
    then "//" ++ nl ++ (if (nonempty url && negb (starts1 url))%bool
                        then "/" ++ url else url)
    else url in
  let url := if nonempty sch then sch ++ ":" ++ url else url in
  let url := if nonempty qry then url ++ "?" ++ qry else url in
  if nonempty frag then url ++ "#" ++ frag else url.

(** [urlunparse] *)
Definition urlunparse (p : ParseResult) : string :=
  urlunsplit (scheme p) (netloc p)
             (if nonempty (params p) then path p ++ ";" ++ params p
              else path p)
             (query p) (fragment p).

(** The loop of [urljoin] over the segments, [resolved] in reverse. *)
Fixpoint resolve (segments resolved : list string) : list string :=
  match segments with
  | [] => rev resolved
  | seg :: rest =>
      if String.eqb seg ".." then resolve rest (tl resolved)
      else if String.eqb seg "." then resolve rest resolved
      else resolve rest (seg :: resolved)
  end.

(** [segments[1:-1] = filter(None, segments[1:-1])] *)
Definition drop_empty_middle (segments : list string) : list string :=
  match segments with
  | first :: rest =>
      match rev rest with
      | last_ :: middle_rev =>
          first :: filter nonempty (rev middle_rev) ++ [last_]
      | [] => segments
      end
  | [] => segments
  end%list.

Definition merge_paths (bpath pth : string) : string :=
  let base_parts := split "/" bpath in
  let base_parts :=
    if nonempty (last base_parts "") then removelast base_parts
    else base_parts in
  let segments :=
    if starts1 pth then split "/" pth
    else drop_empty_middle (base_parts ++ split "/" pth)%list in
  let resolved := resolve segments [] in
  let resolved :=
    let l := last segments "" in
    if (String.eqb l "." || String.eqb l "..")%bool
    then (resolved ++ [""])%list else resolved in
  let joined := join "/" resolved in
  if nonempty joined then joined else "/".

(** [urljoin(base, url)] *)
Definition urljoin (base url : string) : result string :=
  if negb (nonempty base) then Ok url
  else if negb (nonempty url) then Ok base
  else
    rbind (urlparse base "") (fun b =>
    rbind (urlparse url (scheme b)) (fun u =>
      if (negb (String.eqb (scheme u) (scheme b)) ||
          negb (mem (scheme u) uses_relative))%bool
      then Ok url
      else if (mem (scheme u) uses_netloc && nonempty (netloc u))%bool
      then Ok (urlunparse u)
      else
        let nl := if mem (scheme u) uses_netloc then netloc b else netloc u in
        if (negb (nonempty (path u)) && negb (nonempty (params u)))%bool
        then Ok (urlunparse
                   (mkParseResult (scheme u) nl (path b) (params b)
                      (if nonempty (query u) then query u else query b)
                      (fragment u)))
        else Ok (urlunparse
                   (mkParseResult (scheme u) nl (merge_paths (path b) (path u))
                      (params u) (query u) (fragment u))))).

(** An absolute URL: it has a scheme of its own and a network location. *)
Definition absolute (url : string) : bool :=
  match split_scheme url with
  | Some (sch, rest) =>
      match split_rest sch rest with
      | Ok r => nonempty (sr_netloc r)
      | Raise _ => false
      end
  | None => false
  end.

(** A relative URL: no scheme and no network location of its own. *)
Definition relative (url : string) : bool :=
  match split_scheme url with
  | Some _ => false
  | None =>
      match split_rest "" url with
      | Ok r => negb (nonempty (sr_netloc r))
      | Raise _ => false
      end
  end.

End urllib_parse.

(** ** Client *)

(** The client as [request] uses it: the base URL set by [__init__] from
    [BASE_URL], which a caller may assign anew. *)
Record client : Type := mkclient {
  base_url : string
}.

Definition BASE_URL : string := "http://api.cosm.com".

Definition Client_init : client := mkclient BASE_URL.

(** [Client._encode_data] *)
Definition Client_encode_data (data : value) : result json := dumps data.

(** What [Client.request] hands to [Session.request]: the method, the full
    URL, the encoded [data] when the caller gave one, and the other keyword
    arguments as they came. *)
Record session_request : Type := mksession_request {
  req_method : string;
  req_url : string;
  req_data : option json;
  req_kwargs : dict
}.

(** [Client.request(method, url, **kwargs)], with [data] apart from the
    other keyword arguments. *)
Definition Client_request (c : client) (method_ url : string)
    (data : option value) (kwargs : dict) : result session_request :=
  rbind (urllib_parse.urljoin (base_url c) url) (fun full_url =>
  match data with
  | Some d =>
      rbind (Client_encode_data d) (fun j =>
        Ok (mksession_request method_ full_url (Some j) kwargs))
  | None => Ok (mksession_request method_ full_url None kwargs)
  end).

(** ** What the encoder can write

    [serializable v]: no object without [__getstate__] (a manager, a bound
    method, a stateless object) anywhere in [v], states of objects
    included. *)
Fixpoint serializable (v : value) : bool :=
  match v with
  | VNone | VBool _ | VInt _ | VStr _ | VDatetime _ => true
  | VList l => forallb serializable l
  | VDict d => forallb (fun kv => serializable (snd kv)) d
  | VEntity _ _ data _ => forallb (fun kv => serializable (snd kv)) data
  | VObject (Some state) => serializable state
  | VObject None | VManager _ _ | VBound _ => false
  end.

(** [as_plain v]: [v] with every entity replaced by the [dict] of its
    store and every object by its state, at any depth. *)
Fixpoint as_plain (v : value) : value :=
  match v with
  | VList l => VList (map as_plain l)
  | VDict d => VDict (map (fun kv => (fst kv, as_plain (snd kv))) d)
  | VEntity _ _ data _ =>
      VDict (map (fun kv => (fst kv, as_plain (snd kv))) data)
  | VObject (Some state) => as_plain state
  | _ => v
  end.

(** ** Plain paths

    [plain_path url]: an absolute path as the managers build them: it
    starts with one slash, has no [:], [?], [#] or [;] and no [.] or [..]
    segment. *)
Definition dot_segment (seg : string) : bool :=
  String.eqb seg "." || String.eqb seg "..".

Definition plain_path (url : string) : bool :=
  urllib_parse.starts1 url && negb (urllib_parse.starts2 url) &&
  negb (urllib_parse.contains ":" url) &&
  negb (urllib_parse.contains "?" url) &&
  negb (urllib_parse.contains "#" url) &&
  negb (urllib_parse.contains ";" url) &&
  forallb (fun seg => negb (dot_segment seg)) (urllib_parse.split "/" url).

(** ** The effect of update and delete

    [one_call_or_none w out]: the outcome [out] of a method run in [w]
    left the entity as it was, and either returned after exactly one more
    manager call or raised after none. *)
Definition one_call_or_none (w : world) (out : result unit * world) : Prop :=
  self (snd out) = self w /\
  match fst out with
  | Ok _ => exists c, calls (snd out) = (calls w ++ [c])%list
  | Raise _ => snd out = w
  end.

(** ** The test fixtures

    [BaseTestCase._create_feed], [_create_datastream] and
    [_create_datapoint] of [tests.py]: build the entity, bind it to a
    manager, and for a feed with an [id] and no [feed] field, store the
    feed's URL.  [str] is the text [format] writes for a value; the
    manager is built on the object of identity [owner] (the client, the
    feed, the datastream). *)

(** [m] run on [e] with no call recorded yet: the entity afterwards. *)
Definition run_on (e : entity) (m : M unit) : result entity :=
  match m (mkworld e []) with
  | (Ok _, w) => Ok (self w)
  | (Raise x, _) => Raise x
  end.

Section Fixtures.
Variable str : value -> string.

(** [_create_feed], given the keyword arguments [data]; [Feed] needs
    [title] among them. *)
Definition create_feed (owner i : N) (data : dict) : result entity :=
  match dict_pop "title" data with
  | Raise _ => Raise TypeError
  | Ok (title, kwargs) =>
      rbind (new_Feed i title kwargs) (fun feed =>
        run_on feed
          (Base_setattr "_manager" (VManager FeedsManager owner) ;;
           match dict_get "id" data with
           | Some id =>
               if negb (dict_has "feed" data)
               then set_item "feed"
                      (VStr ("http://api.cosm.com/v2/feeds/" ++ str id))
               else ret tt
           | None => ret tt
           end))
  end.

End Fixtures.

(** [_create_datastream], given the keyword arguments [data];
    [Datastream] needs [id] among them. *)
Definition create_datastream (owner i : N) (data : dict) : result entity :=
  match dict_pop "id" data with
  | Raise _ => Raise TypeError
  | Ok (id, kwargs) =>
      rbind (new_Datastream i id kwargs) (fun datastream =>
        run_on datastream
          (Base_setattr "_manager" (VManager DatastreamsManager owner)))
  end.

(** [_create_datapoint], given [at] and [value]. *)
Definition create_datapoint (owner i : N) (at_ v : value) : result entity :=
  rbind (new_Datapoint i at_ v) (fun datapoint =>
    run_on datapoint
      (Base_setattr "_manager" (VManager DatapointsManager owner))).
(** * Properties *)

(** ** Strings *)

Lemma append_assoc (a b c : string) : (a ++ b) ++ c = a ++ (b ++ c).
Proof.
  induction a as [|ch a IH]; simpl; [reflexivity | now rewrite IH].
Qed.

Lemma append_nil_r (a : string) : a ++ "" = a.
Proof.
  induction a as [|ch a IH]; simpl; [reflexivity | now rewrite IH].
Qed.

Lemma append_inv_r (a b c : string) : a ++ b = a ++ c -> b = c.
Proof.
  induction a as [|ch a IH]; simpl; intros H; [assumption|].
  injection H as H. now apply IH.
Qed.

(** ** Examples from the docstrings and the tests *)

Example encode_docstring :
  TimeCodec.encode (mkdatetime 2013 2 22 12 14 40 0 None) = "2013-02-22T12:14:40Z".
Proof. reflexivity. Qed.

Example encode_test_datapoint :
  TimeCodec.encode (mkdatetime 2010 7 28 7 48 22 14326 None)
  = "2010-07-28T07:48:22.014326Z".
Proof. reflexivity. Qed.

Example decode_fixture :
  TimeCodec.decode "2013-01-01T14:44:55.111267Z"
  = Ok (mkdatetime 2013 1 1 14 44 55 111267 None).
Proof. reflexivity. Qed.

(** ** The time codec *)

Section TimeCodecFacts.
Import TimeCodec.

Lemma digit_val_char (d : Z) :
  0 <= d < 10 -> digit_val (digit_char d) = Some d.
Proof.
  intros H.
  assert (d = 0 \/ d = 1 \/ d = 2 \/ d = 3 \/ d = 4 \/ d = 5 \/ d = 6 \/
          d = 7 \/ d = 8 \/ d = 9) as Hd by lia.
  repeat (destruct Hd as [-> | Hd]; [reflexivity|]).
  subst d. reflexivity.
Qed.

Lemma pow10_pos (w : nat) : 0 < 10 ^ Z.of_nat w.
Proof. apply Z.pow_pos_nonneg; lia. Qed.

Lemma mod_pow10_succ (n : Z) (w : nat) :
  n mod 10 ^ Z.of_nat (S w)
  = (n / 10 ^ Z.of_nat w) mod 10 * 10 ^ Z.of_nat w + n mod 10 ^ Z.of_nat w.
Proof.
  pose proof (pow10_pos w) as Hp.
  rewrite Nat2Z.inj_succ, Z.pow_succ_r by lia.
  rewrite (Z.mul_comm 10), Z.rem_mul_r by lia.
  lia.
Qed.

(** Reading back [w] printed digits gives the field, modulo [10^w]. *)
Lemma take_digits_fmt (w : nat) :
  forall (n acc : Z) (rest : string),
    take_digits w acc (fmt_digits w n ++ rest)
    = Some (acc * 10 ^ Z.of_nat w + n mod 10 ^ Z.of_nat w, rest).
Proof.
  induction w as [|w IH]; intros n acc rest.
  - simpl. rewrite Z.mod_1_r. do 2 f_equal. lia.
  - cbn [fmt_digits append take_digits].
    rewrite digit_val_char by (apply Z.mod_pos_bound; lia).
    rewrite IH, mod_pow10_succ.
    rewrite Nat2Z.inj_succ, Z.pow_succ_r by lia.
    do 2 f_equal. lia.
Qed.

Lemma take_digits_field (w : nat) (n : Z) (rest : string) :
  0 <= n < 10 ^ Z.of_nat w ->
  take_digits w 0 (fmt_digits w n ++ rest) = Some (n, rest).
Proof.
  intros H. rewrite take_digits_fmt, Z.mod_small by assumption.
  reflexivity.
Qed.

Lemma days_in_month_bound (y m : Z) : 28 <= days_in_month y m <= 31.
Proof.
  unfold days_in_month.
  destruct (m =? 2); [destruct (is_leap y); lia|].
  destruct ((m =? 4) || (m =? 6) || (m =? 9) || (m =? 11))%bool; lia.
Qed.

Lemma between_spec (lo x hi : Z) : between lo x hi = true <-> lo <= x <= hi.
Proof. unfold between. rewrite andb_true_iff, !Z.leb_le. reflexivity. Qed.

Lemma fields_ok_spec (y mo d h mi s us : Z) :
  fields_ok y mo d h mi s us = true ->
  1 <= y <= 9999 /\ 1 <= mo <= 12 /\ 1 <= d <= 31 /\ 0 <= h <= 23 /\
  0 <= mi <= 59 /\ 0 <= s <= 59 /\ 0 <= us <= 999999.
Proof.
  unfold fields_ok. rewrite !andb_true_iff, !between_spec.
  pose proof (days_in_month_bound y mo). lia.
Qed.

Lemma take_fraction_none (s : string) :
  starts_with "." s = false -> take_fraction s = Some (0, s).
Proof.
  destruct s as [|c s]; simpl; [reflexivity|]. now intros ->.
Qed.

Lemma take_fraction_some (us : Z) (rest : string) :
  0 <= us <= 999999 ->
  take_fraction ("." ++ fmt_digits 6 us ++ rest) = Some (us, rest).
Proof.
  intros H. cbn [append take_fraction]. rewrite Ascii.eqb_refl.
  apply take_digits_field. simpl. lia.
Qed.

(** The calendar fields are read back exactly from what [isoformat] printed,
    whatever follows them, provided a whole-second value is not followed by
    a dot. *)
Lemma take_calendar_format (t : datetime) (rest : string) :
  fields_ok (year t) (month t) (day t) (hour t) (minute t) (second t)
            (microsecond t) = true ->
  starts_with "." rest = false ->
  take_calendar (format_calendar t ++ rest)
  = Some (year t, month t, day t, hour t, minute t, second t,
          microsecond t, rest).
Proof.
  intros Hok Hrest. apply fields_ok_spec in Hok.
  unfold format_calendar, format_date, format_time, take_calendar.
  rewrite !append_assoc.
  do 6 (rewrite take_digits_field by (simpl; lia);
        repeat (progress cbn [obind expect append]; rewrite ?Ascii.eqb_refl)).
  destruct (Z.eqb_spec (microsecond t) 0) as [E|E].
  - cbn [append]. rewrite take_fraction_none by assumption.
    cbn [obind]. now rewrite E.
  - change (String "." (fmt_digits 6 (microsecond t)) ++ rest)
      with ("." ++ fmt_digits 6 (microsecond t) ++ rest).
    rewrite take_fraction_some by lia. reflexivity.
Qed.

Lemma String_inj_tail (c1 c2 : ascii) (a b : string) :
  String c1 a = String c2 b -> a = b.
Proof. intros H. now injection H. Qed.

Lemma offset_no_dot (tz : option Z) :
  starts_with "." (format_offset tz ++ "Z") = false.
Proof.
  destruct tz as [m|]; [|reflexivity].
  unfold format_offset. destruct (m <? 0); reflexivity.
Qed.

Lemma datetime_ok_fields (t : datetime) :
  datetime_ok t = true ->
  fields_ok (year t) (month t) (day t) (hour t) (minute t) (second t)
            (microsecond t) = true.
Proof. unfold datetime_ok. now rewrite andb_true_iff. Qed.

Lemma take_calendar_encode (t : datetime) :
  datetime_ok t = true ->
  take_calendar (encode t)
  = Some (year t, month t, day t, hour t, minute t, second t,
          microsecond t, format_offset (tzinfo t) ++ "Z").
Proof.
  intros Hok. unfold encode, isoformat. rewrite append_assoc.
  apply take_calendar_format;
    [now apply datetime_ok_fields | apply offset_no_dot].
Qed.

(** Decoding what the encoder wrote for a naive value gives the value back. *)
Lemma decode_encode_naive (t : datetime) :
  datetime_ok t = true -> naive t -> decode (encode t) = Ok t.
Proof.
  intros Hok Hn. unfold decode.
  rewrite take_calendar_encode by assumption.
  unfold naive in Hn. rewrite Hn. cbn [format_offset append].
  rewrite (datetime_ok_fields t Hok).
  destruct t; simpl in *; now subst.
Qed.

Lemma format_offset_inj (tz1 tz2 : option Z) :
  offset_ok tz1 = true -> offset_ok tz2 = true ->
  format_offset tz1 ++ "Z" = format_offset tz2 ++ "Z" -> tz1 = tz2.
Proof.
  destruct tz1 as [m1|], tz2 as [m2|]; cbn [offset_ok format_offset];
    rewrite ?between_spec; intros H1 H2 E.
  - rewrite !append_assoc in E.
    assert (Hsign : (m1 <? 0) = (m2 <? 0)).
    { destruct (m1 <? 0), (m2 <? 0); cbn [append] in E;
        try reflexivity; discriminate E. }
    assert (E' : fmt_digits 2 (Z.abs m1 / 60) ++ ":" ++
                 fmt_digits 2 (Z.abs m1 mod 60) ++ "Z"
               = fmt_digits 2 (Z.abs m2 / 60) ++ ":" ++
                 fmt_digits 2 (Z.abs m2 mod 60) ++ "Z").
    { rewrite Hsign in E. destruct (m2 <? 0); cbn [append] in E;
        exact (String_inj_tail _ _ _ _ E). }
    remember (":" ++ fmt_digits 2 (Z.abs m1 mod 60) ++ "Z") as r1 eqn:Hr1.
    remember (":" ++ fmt_digits 2 (Z.abs m2 mod 60) ++ "Z") as r2 eqn:Hr2.
    pose proof (f_equal (take_digits 2 0) E') as Eh.
    rewrite !take_digits_field in Eh
      by (simpl; split; [apply Z.div_pos | apply Z.div_lt_upper_bound]; lia).
    injection Eh as Eq Er. subst r1 r2.
    cbn [append] in Er. apply String_inj_tail in Er.
    pose proof (f_equal (take_digits 2 0) Er) as Em.
    rewrite !take_digits_field in Em
      by (simpl; pose proof (Z.mod_pos_bound (Z.abs m1) 60);
          pose proof (Z.mod_pos_bound (Z.abs m2) 60); lia).
    injection Em as Em.
    assert (Z.abs m1 = Z.abs m2).
    { rewrite (Z.div_mod (Z.abs m1) 60), (Z.div_mod (Z.abs m2) 60) by lia.
      congruence. }
    f_equal.
    destruct (Z.ltb_spec m1 0), (Z.ltb_spec m2 0); try discriminate; lia.
  - destruct (m1 <? 0); discriminate.
  - destruct (m2 <? 0); discriminate.
  - reflexivity.
Qed.

(** The encoder loses nothing: two values with the same rendering are the
    same value, down to the microsecond and the offset. *)
Lemma encode_inj (t1 t2 : datetime) :
  datetime_ok t1 = true -> datetime_ok t2 = true ->
  encode t1 = encode t2 -> t1 = t2.
Proof.
  intros H1 H2 E.
  pose proof (f_equal take_calendar E) as Ec.
  rewrite !take_calendar_encode in Ec by assumption.
  injection Ec as Ey Emo Ed Eh Emi Es Eus Eoff.
  apply format_offset_inj in Eoff.
  - destruct t1, t2; simpl in *; now subst.
  - unfold datetime_ok in H1. now apply andb_true_iff in H1.
  - unfold datetime_ok in H2. now apply andb_true_iff in H2.
Qed.

Lemma calendar_length (t : datetime) :
  String.length (format_calendar t)
  = if microsecond t =? 0 then 19%nat else 26%nat.
Proof.
  unfold format_calendar, format_date, format_time.
  destruct (microsecond t =? 0); reflexivity.
Qed.

End TimeCodecFacts.

(** ** Claims about the time codec *)

(** C1 (as stated, refuted): an aware timestamp does not survive the round
    trip.  [isoformat] prints its offset, the encoder appends the marker
    after it, and the decoder, which takes the marker as a literal and reads
    no offset, rejects the result. *)
Lemma C1_aware_counterexample :
  let t := mkdatetime 2013 1 1 14 0 0 0 (Some 0) in
  datetime_ok t = true /\
  TimeCodec.encode t = "2013-01-01T14:00:00+00:00Z" /\
  TimeCodec.decode (TimeCodec.encode t) = Raise FormatError /\
  TimeCodec.decode (TimeCodec.encode t) <> Ok t.
Proof.
  cbv zeta. split; [reflexivity|]. split; [reflexivity|].
  split; [reflexivity|]. discriminate.
Qed.

(** C1 (amended): for every naive timestamp [t] (microsecond or coarser
    precision, no time zone attached), decoding the wire rendering of [t]
    gives [t] back. *)
Theorem C1_decode_encode (t : datetime) :
  datetime_ok t = true -> naive t ->
  TimeCodec.decode (TimeCodec.encode t) = Ok t.
Proof. apply decode_encode_naive. Qed.

Lemma C1_decode_encode_witness :
  let t := mkdatetime 2010 7 28 7 48 22 14326 None in
  datetime_ok t = true /\ naive t /\
  TimeCodec.decode (TimeCodec.encode t) = Ok t.
Proof.
  cbv zeta. split; [reflexivity|]. split; [reflexivity|].
  apply (C1_decode_encode (mkdatetime 2010 7 28 7 48 22 14326 None));
    reflexivity.
Defined.

(** C4: the encoder lays out the calendar fields of [t] as
    [YYYY-MM-DDTHH:MM:SS], followed by a six-digit fraction exactly when the
    microsecond field is not zero, then whatever offset text [isoformat]
    prints for an aware value (nothing for a naive one), and ends with the
    literal [Z].  The calendar part and the marker are the same whatever the
    time zone; the fields can be read back from the rendering exactly, so
    two timestamps that differ, be it by one microsecond, render
    differently. *)
Theorem C4_encode_layout (t : datetime) :
  datetime_ok t = true ->
  format_calendar t
  = fmt_digits 4 (year t) ++ "-" ++ fmt_digits 2 (month t) ++ "-" ++
    fmt_digits 2 (day t) ++ "T" ++ fmt_digits 2 (hour t) ++ ":" ++
    fmt_digits 2 (minute t) ++ ":" ++ fmt_digits 2 (second t) ++
    (if microsecond t =? 0 then "" else "." ++ fmt_digits 6 (microsecond t))
  /\ (forall tz, TimeCodec.encode (replace_tzinfo t tz)
                 = format_calendar t ++ format_offset tz ++ "Z")
  /\ (naive t -> TimeCodec.encode t = format_calendar t ++ "Z")
  /\ TimeCodec.take_calendar (TimeCodec.encode t)
     = Some (year t, month t, day t, hour t, minute t, second t,
             microsecond t, format_offset (tzinfo t) ++ "Z")
  /\ (forall t', datetime_ok t' = true ->
                 TimeCodec.encode t = TimeCodec.encode t' -> t = t').
Proof.
  intros Hok. split; [|split; [|split; [|split]]].
  - unfold format_calendar, format_date, format_time.
    now rewrite !append_assoc.
  - intros tz. unfold TimeCodec.encode, isoformat. now rewrite append_assoc.
  - intros Hn. unfold TimeCodec.encode, isoformat. now rewrite Hn, append_nil_r.
  - now apply take_calendar_encode.
  - intros t' Hok' E. now apply encode_inj.
Qed.

Lemma C4_encode_layout_witness :
  let t := mkdatetime 2010 7 28 7 48 22 14326 None in
  datetime_ok t = true /\
  TimeCodec.encode t = format_calendar t ++ "Z".
Proof.
  cbv zeta. split; [reflexivity|].
  apply (C4_encode_layout (mkdatetime 2010 7 28 7 48 22 14326 None));
    reflexivity.
Defined.

(** ** More examples from the docstrings and the tests *)

Example test_request_relative_url :
  urllib_parse.urljoin BASE_URL "/v2/feeds" = Ok "http://api.cosm.com/v2/feeds".
Proof. reflexivity. Qed.

Example test_request_absolute_url :
  urllib_parse.urljoin BASE_URL "http://example.com" = Ok "http://example.com".
Proof. reflexivity. Qed.

Example encode_data_docstring_datetime :
  Client_encode_data (VDict [("foo", VDatetime (mkdatetime 2013 2 22 12 14 40 0 None))])
  = Ok (JObject [("foo", JString "2013-02-22T12:14:40Z")]).
Proof. reflexivity. Qed.

Example encode_data_docstring_feed :
  rbind (new_Feed 1 (VStr "The Answer") [("id", VInt 42)])
        (fun feed => Client_encode_data (VDict [("feed", VEntity_of feed)]))
  = Ok (JObject [("feed", JObject [("title", JString "The Answer");
                                   ("id", JNumber 42)])]).
Proof. reflexivity. Qed.

Example encode_data_docstring_datastreams :
  rbind (new_Datastream 1 (VStr "1") []) (fun d1 =>
  rbind (new_Datastream 2 (VStr "2") []) (fun d2 =>
    Client_encode_data
      (VDict [("datastreams", VList [VEntity_of d1; VEntity_of d2])])))
  = Ok (JObject [("datastreams",
                  JArray [JObject [("id", JString "1")];
                          JObject [("id", JString "2")]])]).
Proof. reflexivity. Qed.

Example test_create_feed :
  rbind (new_Feed 1 (VStr "Feed Test") []) (fun feed =>
    Client_request Client_init "POST" "/v2/feeds" (Some (VEntity_of feed)) [])
  = Ok (mksession_request "POST" "http://api.cosm.com/v2/feeds"
          (Some (JObject [("title", JString "Feed Test")])) []).
Proof. reflexivity. Qed.

Example test_update_datapoint :
  let at_ := VDatetime (mkdatetime 2010 7 28 7 48 22 14326 None) in
  let manager := VManager DatapointsManager 7 in
  rbind (new_Datapoint 9 at_ (VStr "296")) (fun datapoint =>
    let w := mkworld datapoint [] in
    let w := snd (Base_setattr "_manager" manager w) in
    let w := snd (Base_setattr "value" (VStr "297") w) in
    Ok (calls (snd (Datapoint_update w))))
  = Ok [call_update manager at_ [("value", VStr "297")]].
Proof. reflexivity. Qed.

Example test_update_datapoint_url :
  let at_ := VDatetime (mkdatetime 2010 7 28 7 48 22 14326 None) in
  option_map
    (fun u => Manager.request_of u
                (call_update (VManager DatapointsManager 7) at_
                             [("value", VStr "297")]))
    (Manager.datapoints_collection_url (VInt 1977) (VStr "1"))
  = Some (Some (Manager.mkapi_request "PUT"
      "/v2/feeds/1977/datastreams/1/datapoints/2010-07-28T07:48:22.014326Z"
      (Some [("value", VStr "297")]))).
Proof. reflexivity. Qed.

(** ** dict *)

Section DictFacts.
Context {V : Type}.
Implicit Types (d kw : @dict_of V) (k : string) (v : V).

Lemma dict_get_set_eq k v d : dict_get k (dict_set k v d) = Some v.
Proof.
  induction d as [|[k' v'] d IH]; simpl.
  - now rewrite String.eqb_refl.
  - destruct (String.eqb k k') eqn:E; simpl; rewrite E; [reflexivity|exact IH].
Qed.

Lemma dict_get_set_neq k k' v d :
  k <> k' -> dict_get k (dict_set k' v d) = dict_get k d.
Proof.
  intros Hne. induction d as [|[k2 v2] d IH]; simpl.
  - apply String.eqb_neq in Hne. now rewrite Hne.
  - destruct (String.eqb k' k2) eqn:E; simpl.
    + apply String.eqb_eq in E. subst k2.
      apply String.eqb_neq in Hne. now rewrite Hne.
    + now rewrite IH.
Qed.

Lemma dict_get_del_eq k d : dict_get k (dict_del k d) = None.
Proof.
  induction d as [|[k' v'] d IH]; simpl; [reflexivity|].
  destruct (String.eqb k k') eqn:E; simpl; [exact IH | now rewrite E].
Qed.

Lemma dict_get_del_neq k k' d :
  k <> k' -> dict_get k (dict_del k' d) = dict_get k d.
Proof.
  intros Hne. induction d as [|[k2 v2] d IH]; simpl; [reflexivity|].
  destruct (String.eqb k' k2) eqn:E; simpl.
  - apply String.eqb_eq in E. subst k2.
    apply String.eqb_neq in Hne. now rewrite Hne.
  - now rewrite IH.
Qed.

(** The keys after [d[k] = v]: unchanged when [k] was there, [k] added at
    the end when it was not. *)
Lemma dict_keys_set k v d :
  dict_keys (dict_set k v d)
  = if dict_has k d then dict_keys d else (dict_keys d ++ [k])%list.
Proof.
  unfold dict_has. induction d as [|[k' v'] d IH]; simpl; [reflexivity|].
  destruct (String.eqb k k') eqn:E; simpl; [reflexivity|].
  rewrite IH. now destruct (dict_get k d).
Qed.

Lemma dict_get_update_absent k d kw :
  dict_get k d = None -> dict_get k kw = None ->
  dict_get k (dict_update d kw) = None.
Proof.
  unfold dict_update. revert d.
  induction kw as [|[k' v'] kw IH]; simpl; intros d Hd Hkw; [exact Hd|].
  destruct (String.eqb k k') eqn:E; [discriminate|].
  apply IH; [|exact Hkw].
  rewrite dict_get_set_neq; [exact Hd|]. now apply String.eqb_neq.
Qed.

Lemma dict_has_get k d :
  dict_has k d = false <-> dict_get k d = None.
Proof. unfold dict_has. destruct (dict_get k d); split; congruence. Qed.

Lemma dict_get_In k v d : dict_get k d = Some v -> In (k, v) d.
Proof.
  induction d as [|[k' v'] d IH]; simpl; [discriminate|].
  destruct (String.eqb k k') eqn:E.
  - apply String.eqb_eq in E. intros [= ->]. subst. now left.
  - intros H. right. now apply IH.
Qed.

Lemma dict_get_keys k d : dict_get k d = None <-> ~ In k (dict_keys d).
Proof.
  induction d as [|[k' v'] d IH]; simpl; [tauto|].
  destruct (String.eqb k k') eqn:E.
  - apply String.eqb_eq in E. subst. split; [discriminate|]. tauto.
  - apply String.eqb_neq in E. rewrite IH. split; [|tauto].
    intros H [H'|H']; [congruence|tauto].
Qed.

End DictFacts.

(** ** The encoder *)

Lemma dumps_VDict (d : dict) : dumps (VDict d) = rmap JObject (dumps_items d).
Proof. reflexivity. Qed.

Lemma dumps_VEntity (c : pyclass) (i : N) (data attrs_ : dict) :
  dumps (VEntity c i data attrs_) = rmap JObject (dumps_items data).
Proof. reflexivity. Qed.

Lemma dumps_VList (l : list value) :
  dumps (VList l) = rmap JArray (dumps_elements l).
Proof. reflexivity. Qed.

Lemma dumps_items_cons (k : string) (v : value) (d : dict) :
  dumps_items ((k, v) :: d)
  = rbind (dumps v) (fun j =>
    rbind (dumps_items d) (fun js => Ok ((k, j) :: js))).
Proof. reflexivity. Qed.

Lemma dumps_elements_cons (v : value) (l : list value) :
  dumps_elements (v :: l)
  = rbind (dumps v) (fun j =>
    rbind (dumps_elements l) (fun js => Ok (j :: js))).
Proof. reflexivity. Qed.

Lemma rbind_Ok {A B : Type} (r : result A) (k : A -> result B) (b : B) :
  rbind r k = Ok b -> exists a, r = Ok a /\ k a = Ok b.
Proof. destruct r as [a|e]; simpl; [eauto | discriminate]. Qed.

(** The encoder writes an object with the keys of the mapping, in order. *)
Lemma dumps_items_keys (d : dict) (items : list (string * json)) :
  dumps_items d = Ok items -> map fst items = dict_keys d.
Proof.
  revert items. induction d as [|[k v] d IH]; intros items H.
  - injection H as <-. reflexivity.
  - rewrite dumps_items_cons in H.
    apply rbind_Ok in H as (j & _ & H).
    apply rbind_Ok in H as (js & Hjs & H).
    injection H as <-. simpl. f_equal. now apply IH.
Qed.

(** What [default] hands back is what gets written. *)
Lemma dumps_default (o : value) :
  match o with
  | VDatetime _ | VEntity _ _ _ _ | VObject _ | VManager _ _ | VBound _ =>
      dumps o = rbind (JSONEncoder_default o) dumps
  | _ => True
  end.
Proof. destruct o as [| | | | | | | | | [st|] |]; try exact I; reflexivity. Qed.

(** Induction on values, with the hypotheses on the members of a container
    as [Forall]. *)
Lemma value_induction (P : value -> Prop) :
  P VNone ->
  (forall b, P (VBool b)) ->
  (forall n, P (VInt n)) ->
  (forall s, P (VStr s)) ->
  (forall t, P (VDatetime t)) ->
  (forall l, Forall P l -> P (VList l)) ->
  (forall d, Forall (fun kv => P (snd kv)) d -> P (VDict d)) ->
  (forall c i data attrs_,
      Forall (fun kv => P (snd kv)) data -> P (VEntity c i data attrs_)) ->
  (forall k parent, P (VManager k parent)) ->
  (forall state, P state -> P (VObject (Some state))) ->
  P (VObject None) ->
  (forall name, P (VBound name)) ->
  forall v, P v.
Proof.
  intros HNone Hbool Hint Hstr Htime Hlist Hdict Hent Hman Hobj Hobj0 Hbound.
  assert (items_all : forall d : list (string * value),
             list_all (string * value)
               (prod_all string (fun _ => unit) value P) d ->
             Forall (fun kv => P (snd kv)) d).
  { intros d H. induction H as [|kv Hkv d _ IH]; constructor; [|exact IH].
    destruct Hkv as [k _ v Hv]. exact Hv. }
  apply value_ind; auto.
  - intros l H. apply Hlist.
    induction H as [|v Hv l _ IH]; constructor; assumption.
  - intros state H. destruct H as [st Hst|]; auto.
Qed.

Lemma dumps_elements_spec (l : list value) :
  Forall (fun v => forall j, dumps v = Ok j <-> serializes v j) l ->
  forall js, dumps_elements l = Ok js <-> Forall2 serializes l js.
Proof.
  induction 1 as [|v l Hv _ IH]; intros js.
  - simpl. split.
    + intros [= <-]. constructor.
    + intros H. inversion H. reflexivity.
  - rewrite dumps_elements_cons. split.
    + intros H. apply rbind_Ok in H as (j & Hj & H).
      apply rbind_Ok in H as (js' & Hjs & H). injection H as <-.
      constructor; [now apply Hv | now apply IH].
    + intros H. inversion H as [|? j ? js' Hj Hjs]; subst.
      apply Hv in Hj. apply IH in Hjs. now rewrite Hj, Hjs.
Qed.

Lemma dumps_items_spec (d : dict) :
  Forall (fun kv => forall j, dumps (snd kv) = Ok j <-> serializes (snd kv) j) d ->
  forall items, dumps_items d = Ok items <-> Forall2 item_serializes d items.
Proof.
  induction 1 as [|[k v] d Hv _ IH]; intros items.
  - simpl. split.
    + intros [= <-]. constructor.
    + intros H. inversion H. reflexivity.
  - rewrite dumps_items_cons. simpl in Hv. split.
    + intros H. apply rbind_Ok in H as (j & Hj & H).
      apply rbind_Ok in H as (js' & Hjs & H). injection H as <-.
      constructor; [split; [reflexivity | now apply Hv] | now apply IH].
    + intros H. inversion H as [|? [k' j] ? js' [Hk Hj] Hjs]; subst.
      simpl in Hk, Hj. subst k'.
      apply Hv in Hj. apply IH in Hjs. now rewrite Hj, Hjs.
Qed.

Lemma rmap_Ok {A B : Type} (f : A -> B) (r : result A) (b : B) :
  rmap f r = Ok b <-> exists a, r = Ok a /\ b = f a.
Proof.
  destruct r as [a|e]; simpl; split.
  - intros [= <-]. eauto.
  - intros (a' & [= ->] & ->). reflexivity.
  - discriminate.
  - intros (a' & H & _). discriminate.
Qed.

(** The encoder computes the serialization rule, and nothing else. *)
Lemma dumps_serializes (v : value) :
  forall j, dumps v = Ok j <-> serializes v j.
Proof.
  induction v as [| b | n | s | t | l IH | d IH | c i data attrs_ IH
                 | k parent | state IH | | name]
    using value_induction; intros j.
  - split; [intros [= <-]; constructor | intros H; now inversion H].
  - split; [intros [= <-]; constructor | intros H; now inversion H].
  - split; [intros [= <-]; constructor | intros H; now inversion H].
  - split; [intros [= <-]; constructor | intros H; now inversion H].
  - split; [intros [= <-]; constructor | intros H; now inversion H].
  - rewrite dumps_VList, rmap_Ok. split.
    + intros (js & Hjs & ->). constructor.
      now apply (dumps_elements_spec l IH).
    + intros H. inversion H as [| | | | | ? js Hjs | | |]; subst.
      exists js. split; [now apply (dumps_elements_spec l IH) | reflexivity].
  - rewrite dumps_VDict, rmap_Ok. split.
    + intros (items & Hitems & ->). constructor.
      now apply (dumps_items_spec d IH).
    + intros H. inversion H as [| | | | | | ? items Hitems | |]; subst.
      exists items. split; [now apply (dumps_items_spec d IH) | reflexivity].
  - rewrite dumps_VEntity, rmap_Ok. split.
    + intros (items & Hitems & ->). constructor.
      now apply (dumps_items_spec data IH).
    + intros H. inversion H as [| | | | | | | ? ? ? ? items Hitems |]; subst.
      exists items. split; [now apply (dumps_items_spec data IH) | reflexivity].
  - split; [discriminate | intros H; inversion H].
  - simpl. rewrite IH. split.
    + intros H. now constructor.
    + intros H. now inversion H.
  - split; [discriminate | intros H; inversion H].
  - split; [discriminate | intros H; inversion H].
Qed.

Lemma dumps_elements_total (l : list value) :
  Forall (fun v => exists j, dumps v = Ok j) l ->
  exists js, dumps_elements l = Ok js.
Proof.
  induction 1 as [|v l [j Hj] _ [js Hjs]].
  - now exists [].
  - exists (j :: js). now rewrite dumps_elements_cons, Hj, Hjs.
Qed.

Lemma dumps_items_total (d : dict) :
  Forall (fun kv => exists j, dumps (snd kv) = Ok j) d ->
  exists items, dumps_items d = Ok items.
Proof.
  induction 1 as [|[k v] d [j Hj] _ [js Hjs]].
  - now exists [].
  - exists ((k, j) :: js). simpl in Hj. now rewrite dumps_items_cons, Hj, Hjs.
Qed.

(** On the values of the data model the encoder never raises. *)
Lemma dumps_total (v : value) :
  in_data_model v = true -> exists j, dumps v = Ok j.
Proof.
  induction v as [| b | n | s | t | l IH | d IH | c i data attrs_ IH
                 | k parent | state IH | | name]
    using value_induction; intros Hv; try discriminate; try (eexists; reflexivity).
  - simpl in Hv. rewrite forallb_forall in Hv.
    destruct (dumps_elements_total l) as [js Hjs].
    { rewrite Forall_forall in *. intros x Hx. apply IH; [exact Hx|]. now apply Hv. }
    exists (JArray js). now rewrite dumps_VList, Hjs.
  - simpl in Hv. rewrite forallb_forall in Hv.
    destruct (dumps_items_total d) as [js Hjs].
    { rewrite Forall_forall in *. intros x Hx. apply IH; [exact Hx|]. now apply Hv. }
    exists (JObject js). now rewrite dumps_VDict, Hjs.
  - simpl in Hv. rewrite forallb_forall in Hv.
    destruct (dumps_items_total data) as [js Hjs].
    { rewrite Forall_forall in *. intros x Hx. apply IH; [exact Hx|]. now apply Hv. }
    exists (JObject js). now rewrite dumps_VEntity, Hjs.
Qed.

(** ** Attribute access *)

Lemma Base_getattr_eq (name : string) (w : world) :
  Base_getattr name w =
  (match dict_get name (_data (self w)) with
   | Some v => Ok v
   | None => Raise (AttributeError (class_name (cls (self w))) name)
   end, w).
Proof.
  unfold Base_getattr, bind, get_self.
  now destruct (dict_get name (_data (self w))).
Qed.

Lemma lookup_attr_eq (name : string) (w : world) :
  lookup_attr name w =
  (if String.eqb name "_data" then Ok (VDict (_data (self w)))
   else match dict_get name (attrs (self w)) with
        | Some v => Ok v
        | None =>
            match class_lookup (cls (self w)) name with
            | Some class_None => Ok VNone
            | Some _ => Ok (VBound name)
            | None =>
                match dict_get name (_data (self w)) with
                | Some v => Ok v
                | None => Raise (AttributeError (class_name (cls (self w))) name)
                end
            end
        end, w).
Proof.
  unfold lookup_attr, bind, get_self.
  destruct (String.eqb name "_data"); [reflexivity|].
  destruct (dict_get name (attrs (self w))); [reflexivity|].
  destruct (class_lookup (cls (self w)) name) as [[]|]; try reflexivity.
  apply Base_getattr_eq.
Qed.

Lemma world_eta (w : world) :
  w = mkworld (mkentity (cls (self w)) (oid (self w)) (_data (self w))
                        (attrs (self w))) (calls w).
Proof. now destruct w as [[c i d a] cs]. Qed.

(** The getter of [Feed.datastreams]: the cached handle when there is one,
    a new handle on the feed, cached, when there is none. *)
Lemma Feed_datastreams_eq (w : world) :
  cls (self w) = cls_Feed ->
  Feed_datastreams w =
  let handle := manager_of DatastreamsManager (self w) in
  match dict_get "_datastreams" (attrs (self w)) with
  | Some v =>
      if is_None v then (Ok handle, with_attr "_datastreams" handle w)
      else (Ok v, w)
  | None => (Ok handle, with_attr "_datastreams" handle w)
  end.
Proof.
  destruct w as [[c i d a] cs]. simpl. intros ->.
  unfold Feed_datastreams, bind. rewrite lookup_attr_eq. simpl.
  destruct (dict_get "_datastreams" a) as [v|] eqn:E.
  - destruct (is_None v) eqn:Ev.
    + unfold get_self, Base_setattr, object_setattr, set_instance_attr,
        bind, put_self. simpl.
      rewrite lookup_attr_eq. simpl. now rewrite dict_get_set_eq.
    + unfold ret. rewrite lookup_attr_eq. simpl. now rewrite E.
  - simpl. unfold get_self, Base_setattr, object_setattr, set_instance_attr,
      bind, put_self. simpl.
    rewrite lookup_attr_eq. simpl. now rewrite dict_get_set_eq.
Qed.

Lemma Datastream_datapoints_eq (w : world) :
  cls (self w) = cls_Datastream ->
  Datastream_datapoints w =
  let handle := manager_of DatapointsManager (self w) in
  match dict_get "_datapoints" (attrs (self w)) with
  | Some v =>
      if is_None v then (Ok handle, with_attr "_datapoints" handle w)
      else (Ok v, w)
  | None => (Ok handle, with_attr "_datapoints" handle w)
  end.
Proof.
  destruct w as [[c i d a] cs]. simpl. intros ->.
  unfold Datastream_datapoints, bind. rewrite lookup_attr_eq. simpl.
  destruct (dict_get "_datapoints" a) as [v|] eqn:E.
  - destruct (is_None v) eqn:Ev.
    + unfold get_self, Base_setattr, object_setattr, set_instance_attr,
        bind, put_self. simpl.
      rewrite lookup_attr_eq. simpl. now rewrite dict_get_set_eq.
    + unfold ret. rewrite lookup_attr_eq. simpl. now rewrite E.
  - simpl. unfold get_self, Base_setattr, object_setattr, set_instance_attr,
      bind, put_self. simpl.
    rewrite lookup_attr_eq. simpl. now rewrite dict_get_set_eq.
Qed.

Lemma class_lookup_property (c : pyclass) (name : string) :
  class_lookup c name = Some property <->
  (c = cls_Feed /\ name = "datastreams") \/
  (c = cls_Datastream /\ name = "datapoints").
Proof.
  split.
  - unfold class_lookup.
    destruct c; cbn [declared dict_get Base_members];
      repeat (match goal with
              | |- context [String.eqb name ?s] =>
                  destruct (String.eqb_spec name s) as [->|_];
                  [try discriminate; auto|]
              end);
      destruct (existsb _ _); discriminate.
  - intros [[-> ->]|[-> ->]]; reflexivity.
Qed.

Lemma getattr_plain (name : string) (w : world) :
  class_lookup (cls (self w)) name <> Some property ->
  getattr name w = lookup_attr name w.
Proof.
  intros H. unfold getattr, bind, get_self.
  destruct (cls (self w)), (class_lookup _ name) as [[]|];
    try reflexivity; congruence.
Qed.

Lemma getattr_property (name : string) (w : world) :
  class_lookup (cls (self w)) name = Some property ->
  exists v w', getattr name w = (Ok v, w').
Proof.
  intros H. pose proof H as H'.
  apply class_lookup_property in H' as [[Hc ->]|[Hc ->]];
    unfold getattr, bind, get_self; rewrite H, Hc.
  - rewrite (Feed_datastreams_eq w Hc). cbv zeta.
    destruct (dict_get "_datastreams" _) as [v|]; [destruct (is_None v)|];
      eauto.
  - rewrite (Datastream_datapoints_eq w Hc). cbv zeta.
    destruct (dict_get "_datapoints" _) as [v|]; [destruct (is_None v)|];
      eauto.
Qed.

Lemma structural_false (e : entity) (name : string) :
  structural e name = false <->
  String.eqb name "_data" = false /\ dict_get name (attrs e) = None /\
  class_lookup (cls e) name = None.
Proof.
  unfold structural, in_dir, dict_has. rewrite !orb_false_iff.
  destruct (dict_get name (attrs e)), (class_lookup (cls e) name);
    intuition congruence.
Qed.

(** Reading an attribute raises exactly when the name is neither structural
    nor in the store, and then it is the hook's [AttributeError]. *)
Lemma getattr_raises (name : string) (w : world) (x : exn) (w' : world) :
  getattr name w = (Raise x, w') <->
  structural (self w) name = false /\ dict_get name (_data (self w)) = None /\
  x = AttributeError (class_name (cls (self w))) name /\ w' = w.
Proof.
  rewrite structural_false. split.
  - intros H.
    destruct (class_lookup (cls (self w)) name) as [m|] eqn:Hc.
    + destruct m.
      * destruct (getattr_property name w Hc) as (v & w1 & Hv). congruence.
      * rewrite getattr_plain, lookup_attr_eq, Hc in H by congruence.
        destruct (String.eqb name "_data"); [discriminate|].
        destruct (dict_get name (attrs (self w))); discriminate.
      * rewrite getattr_plain, lookup_attr_eq, Hc in H by congruence.
        destruct (String.eqb name "_data"); [discriminate|].
        destruct (dict_get name (attrs (self w))); discriminate.
    + rewrite getattr_plain, lookup_attr_eq, Hc in H by congruence.
      destruct (String.eqb name "_data"); [discriminate|].
      destruct (dict_get name (attrs (self w))); [discriminate|].
      destruct (dict_get name (_data (self w))); [discriminate|].
      injection H as <- <-. auto.
  - intros ((Hd & Ha & Hc) & Hs & -> & ->).
    rewrite getattr_plain, lookup_attr_eq, Hd, Ha, Hc, Hs by congruence.
    reflexivity.
Qed.

Lemma getattr_store (name : string) (w : world) (v : value) :
  structural (self w) name = false ->
  dict_get name (_data (self w)) = Some v ->
  getattr name w = (Ok v, w).
Proof.
  rewrite structural_false. intros (Hd & Ha & Hc) Hs.
  rewrite getattr_plain, lookup_attr_eq, Hd, Ha, Hc, Hs by congruence.
  reflexivity.
Qed.

Lemma getattr_structural (name : string) (w : world) :
  structural (self w) name = true ->
  exists v w', getattr name w = (Ok v, w').
Proof.
  intros Hs. destruct (getattr name w) as [[v|x] w'] eqn:E; [eauto|].
  apply getattr_raises in E as (E & _). congruence.
Qed.

Lemma instance_ok_absent (e : entity) (name : string) :
  instance_ok e = true ->
  startswith name "_" = false -> in_dir (cls e) name = false ->
  dict_get name (attrs e) = None.
Proof.
  unfold instance_ok. rewrite forallb_forall. intros Hok Hs Hd.
  apply dict_get_keys. intros Hin. apply Hok in Hin.
  rewrite Hs, Hd in Hin. discriminate.
Qed.

(** ** Assignment *)

Lemma or_default_lookup_manager (w : world) :
  or_default (lookup_attr "_manager") VNone w = (Ok (bound_manager (self w)), w).
Proof.
  unfold or_default, bound_manager. rewrite lookup_attr_eq.
  change (String.eqb "_manager" "_data") with false. cbv iota.
  destruct (dict_get "_manager" (attrs (self w))); [reflexivity|].
  assert (Hc : class_lookup (cls (self w)) "_manager" = None)
    by (destruct (cls (self w)); reflexivity).
  rewrite Hc. now destruct (dict_get "_manager" (_data (self w))).
Qed.

Lemma Feed_datastreams_setter_eq (v : value) (w : world) :
  Feed_datastreams_setter v w =
  (Ok tt,
   with_item "datastreams" v
     (if truthy (bound_manager (self w))
      then with_call (call_coerce_datastreams (bound_manager (self w))
                                              (oid (self w)) v) w
      else w)).
Proof.
  unfold Feed_datastreams_setter, bind. rewrite or_default_lookup_manager.
  destruct (truthy (bound_manager (self w))); reflexivity.
Qed.

Lemma Base_setattr_property (w : world) (field cache : string)
      (k : manager_class) (v : value) :
  nested_collection (cls (self w)) = Some (field, cache, k) ->
  Base_setattr field v w =
  match cls (self w) with
  | cls_Feed => Feed_datastreams_setter v w
  | _ => Datastream_datapoints_setter v w
  end.
Proof.
  destruct w as [[c i d a] cs]. cbn [self cls].
  destruct c; intros [= <- <- <-]; reflexivity.
Qed.

Lemma getattr_nested (w : world) (field cache : string) (k : manager_class) :
  nested_collection (cls (self w)) = Some (field, cache, k) ->
  getattr field w =
  let handle := manager_of k (self w) in
  match dict_get cache (attrs (self w)) with
  | Some v =>
      if is_None v then (Ok handle, with_attr cache handle w) else (Ok v, w)
  | None => (Ok handle, with_attr cache handle w)
  end.
Proof.
  intros H. unfold getattr, bind, get_self.
  destruct (cls (self w)) eqn:Hc; try discriminate; injection H as <- <- <-.
  - change (class_lookup cls_Feed "datastreams") with (Some property).
    cbv iota. now apply Feed_datastreams_eq.
  - change (class_lookup cls_Datastream "datapoints") with (Some property).
    cbv iota. now apply Datastream_datapoints_eq.
Qed.

(** ** update and delete *)

(** Serializing returns the store and leaves the world as it is. *)
Lemma Base_getstate_eq (w : world) :
  Base_getstate w = (Ok (_data (self w)), w).
Proof. reflexivity. Qed.

(** Reading a name that the class does not have: the instance dictionary,
    then the store, then [AttributeError]; the world stays as it is. *)
Lemma getattr_unclassed (name : string) (w : world) :
  class_lookup (cls (self w)) name = None ->
  String.eqb name "_data" = false ->
  getattr name w =
  (match dict_get name (attrs (self w)) with
   | Some v => Ok v
   | None =>
       match dict_get name (_data (self w)) with
       | Some v => Ok v
       | None => Raise (AttributeError (class_name (cls (self w))) name)
       end
   end, w).
Proof.
  intros Hc Hd. rewrite getattr_plain, lookup_attr_eq, Hd, Hc by congruence.
  reflexivity.
Qed.

Lemma class_lookup_manager (c : pyclass) : class_lookup c "_manager" = None.
Proof. destruct c; reflexivity. Qed.

Lemma class_lookup_feed (c : pyclass) : class_lookup c "feed" = None.
Proof. destruct c; reflexivity. Qed.

Lemma class_lookup_id (c : pyclass) : class_lookup c "id" = None.
Proof. destruct c; reflexivity. Qed.

Lemma class_lookup_at (c : pyclass) : class_lookup c "at" = None.
Proof. destruct c; reflexivity. Qed.

Lemma getattr_manager_bound (w : world) (m : value) :
  dict_get "_manager" (attrs (self w)) = Some m ->
  getattr "_manager" w = (Ok m, w).
Proof.
  intros H. rewrite getattr_unclassed, H;
    [reflexivity | apply class_lookup_manager | reflexivity].
Qed.

(** A field name the class does not have reads from the store. *)
Lemma getattr_field (name : string) (w : world) :
  instance_ok (self w) = true ->
  class_lookup (cls (self w)) name = None ->
  startswith name "_" = false ->
  getattr name w =
  (match dict_get name (_data (self w)) with
   | Some v => Ok v
   | None => Raise (AttributeError (class_name (cls (self w))) name)
   end, w).
Proof.
  intros Hok Hc Hs.
  assert (Hd : String.eqb name "_data" = false).
  { destruct (String.eqb_spec name "_data") as [->|]; [discriminate|reflexivity]. }
  rewrite getattr_unclassed by assumption.
  rewrite (instance_ok_absent _ name Hok Hs); [reflexivity|].
  unfold in_dir. now rewrite Hc.
Qed.

Lemma Feed_update_bound (w : world) (k : manager_class) (p : N) (u : value) :
  instance_ok (self w) = true ->
  dict_get "_manager" (attrs (self w)) = Some (VManager k p) ->
  dict_get "feed" (_data (self w)) = Some u ->
  Feed_update w
  = (Ok tt, with_call (call_update (VManager k p) u (_data (self w))) w).
Proof.
  intros Hok Hm Hf. unfold Feed_update, bind.
  rewrite (getattr_manager_bound w _ Hm). cbn [method_of ret].
  rewrite getattr_field, Hf by (auto using class_lookup_feed).
  reflexivity.
Qed.

Lemma Feed_delete_bound (w : world) (k : manager_class) (p : N) (u : value) :
  instance_ok (self w) = true ->
  dict_get "_manager" (attrs (self w)) = Some (VManager k p) ->
  dict_get "feed" (_data (self w)) = Some u ->
  Feed_delete w = (Ok tt, with_call (call_delete (VManager k p) u) w).
Proof.
  intros Hok Hm Hf. unfold Feed_delete, bind.
  rewrite (getattr_manager_bound w _ Hm). cbn [method_of ret].
  rewrite getattr_field, Hf by (auto using class_lookup_feed).
  reflexivity.
Qed.

(** Reading [_manager] never changes the world, and raises nothing but
    [AttributeError]. *)
Lemma getattr_manager_cases (w : world) :
  (exists m, getattr "_manager" w = (Ok m, w)) \/
  (exists c n, getattr "_manager" w = (Raise (AttributeError c n), w)).
Proof.
  rewrite getattr_unclassed by (apply class_lookup_manager || reflexivity).
  destruct (dict_get "_manager" (attrs (self w))); [eauto|].
  destruct (dict_get "_manager" (_data (self w))); eauto.
Qed.

Lemma method_of_cases (m : value) (name : string) (w : world) :
  method_of m name w = (Ok tt, w) \/
  method_of m name w = (Raise (AttributeError (type_name m) name), w).
Proof. destruct m; simpl; auto. Qed.

Lemma Feed_update_without_feed (w : world) :
  instance_ok (self w) = true ->
  dict_get "feed" (_data (self w)) = None ->
  exists c n, Feed_update w = (Raise (AttributeError c n), w).
Proof.
  intros Hok Hf. unfold Feed_update, bind.
  destruct (getattr_manager_cases w) as [[m ->]|(c & n & ->)]; [|eauto].
  destruct (method_of_cases m "update" w) as [-> | ->]; [|eauto].
  rewrite getattr_field, Hf by (auto using class_lookup_feed). eauto.
Qed.

Lemma Feed_delete_without_feed (w : world) :
  instance_ok (self w) = true ->
  dict_get "feed" (_data (self w)) = None ->
  exists c n, Feed_delete w = (Raise (AttributeError c n), w).
Proof.
  intros Hok Hf. unfold Feed_delete, bind.
  destruct (getattr_manager_cases w) as [[m ->]|(c & n & ->)]; [|eauto].
  destruct (method_of_cases m "delete" w) as [-> | ->]; [|eauto].
  rewrite getattr_field, Hf by (auto using class_lookup_feed). eauto.
Qed.

Lemma Datapoint_update_bound (w : world) (k : manager_class) (p : N)
      (at_ : value) :
  dict_get "_manager" (attrs (self w)) = Some (VManager k p) ->
  dict_get "at" (_data (self w)) = Some at_ ->
  Datapoint_update w
  = (Ok tt, with_call (call_update (VManager k p) at_
                                   (dict_del "at" (_data (self w)))) w).
Proof.
  intros Hm Ha. unfold Datapoint_update, bind.
  rewrite Base_getstate_eq. cbv beta iota.
  rewrite (getattr_manager_bound w _ Hm). cbn [method_of ret].
  unfold lift, dict_pop. rewrite Ha. reflexivity.
Qed.

Lemma Datapoint_delete_bound (w : world) (k : manager_class) (p : N)
      (at_ : value) :
  instance_ok (self w) = true ->
  dict_get "_manager" (attrs (self w)) = Some (VManager k p) ->
  dict_get "at" (_data (self w)) = Some at_ ->
  Datapoint_delete w = (Ok tt, with_call (call_delete (VManager k p) at_) w).
Proof.
  intros Hok Hm Ha. unfold Datapoint_delete, bind.
  rewrite (getattr_manager_bound w _ Hm). cbn [method_of ret].
  rewrite getattr_field, Ha by (auto using class_lookup_at).
  reflexivity.
Qed.

(** ** The instance dictionary stays well formed *)

Lemma forallb_keys_set {V : Type} (p : string -> bool) (k : string) (v : V)
      (d : @dict_of V) :
  forallb p (dict_keys d) = true -> p k = true ->
  forallb p (dict_keys (dict_set k v d)) = true.
Proof.
  intros Hd Hk. rewrite dict_keys_set.
  destruct (dict_has k d); [exact Hd|].
  rewrite forallb_app, Hd. simpl. now rewrite Hk.
Qed.

Lemma Base_setattr_instance_ok (name : string) (v : value) (w : world) :
  instance_ok (self w) = true ->
  instance_ok (self (snd (Base_setattr name v w))) = true.
Proof.
  destruct w as [[c i d a] cs]. unfold instance_ok. cbn [self cls attrs].
  intros Hok. unfold Base_setattr, bind, get_self. cbn [self cls].
  destruct (negb (startswith name "_") && negb (in_dir c name)) eqn:Hb.
  - exact Hok.
  - assert (Hp : startswith name "_" || in_dir c name = true).
    { destruct (startswith name "_"), (in_dir c name); simpl in *; congruence. }
    unfold object_setattr, bind, get_self. cbn [self cls].
    assert (Hset : instance_ok
              (self (snd (set_instance_attr name v
                            (mkworld (mkentity c i d a) cs)))) = true).
    { unfold set_instance_attr, bind, get_self, instance_ok.
      cbn [self cls oid _data attrs].
      destruct (String.eqb name "_data").
      - destruct v; exact Hok.
      - cbn [put_self snd self cls attrs]. now apply forallb_keys_set. }
    destruct (class_lookup c name) as [[]|]; destruct c; try exact Hset.
    + rewrite Feed_datastreams_setter_eq. cbn [snd].
      destruct (truthy _); exact Hok.
    + exact Hok.
Qed.

Lemma getattr_instance_ok (name : string) (w : world) :
  instance_ok (self w) = true ->
  instance_ok (self (snd (getattr name w))) = true.
Proof.
  intros Hok.
  destruct (class_lookup (cls (self w)) name) as [[]|] eqn:Hc;
    try (rewrite getattr_plain, lookup_attr_eq by congruence; exact Hok).
  pose proof Hc as Hn. apply class_lookup_property in Hn.
  assert (Hcache : forall cache handle,
            startswith cache "_" = true ->
            instance_ok (self (with_attr cache handle w)) = true).
  { intros cache handle Hs. unfold instance_ok, with_attr in *.
    cbn [self cls attrs]. apply forallb_keys_set; [exact Hok|].
    now rewrite Hs. }
  destruct Hn as [[Hcls ->]|[Hcls ->]].
  - rewrite (getattr_nested w "datastreams" "_datastreams" DatastreamsManager)
      by now rewrite Hcls.
    cbv zeta. destruct (dict_get "_datastreams" _) as [v|];
      [destruct (is_None v)|]; cbn [snd]; auto.
  - rewrite (getattr_nested w "datapoints" "_datapoints" DatapointsManager)
      by now rewrite Hcls.
    cbv zeta. destruct (dict_get "_datapoints" _) as [v|];
      [destruct (is_None v)|]; cbn [snd]; auto.
Qed.

(** ** Construction *)

Lemma new_Feed_eq (i : N) (title : value) (kwargs : dict) :
  dict_has "title" kwargs = false ->
  new_Feed i title kwargs =
  Ok (mkentity cls_Feed i
        (match dict_get "datastreams" kwargs with
         | Some datastreams =>
             dict_update (dict_set "datastreams" datastreams [("title", title)])
                         (dict_del "datastreams" kwargs)
         | None => dict_update [("title", title)] kwargs
         end) []).
Proof.
  intros Ht. unfold new_Feed. rewrite Ht.
  unfold construct, Feed_init, dict_pop.
  destruct (dict_get "datastreams" kwargs); reflexivity.
Qed.

Lemma new_Datastream_eq (i : N) (id : value) (kwargs : dict) :
  dict_has "id" kwargs = false ->
  new_Datastream i id kwargs =
  Ok (mkentity cls_Datastream i
        (match dict_get "datapoints" kwargs with
         | Some datapoints =>
             dict_update (dict_set "datapoints" datapoints [("id", id)])
                         (dict_del "datapoints" kwargs)
         | None => dict_update [("id", id)] kwargs
         end) []).
Proof.
  intros Ht. unfold new_Datastream. rewrite Ht.
  unfold construct, Datastream_init, dict_pop.
  destruct (dict_get "datapoints" kwargs); reflexivity.
Qed.

Lemma new_Datapoint_eq (i : N) (at_ v : value) :
  new_Datapoint i at_ v
  = Ok (mkentity cls_Datapoint i [("at", at_); ("value", v)] []).
Proof. reflexivity. Qed.

Lemma new_Trigger_eq (i : N) (environment_id stream_id url trigger_type
                      threshold_value : value) :
  new_Trigger i environment_id stream_id url trigger_type threshold_value =
  Ok (mkentity cls_Trigger i
        ([("environment_id", environment_id); ("stream_id", stream_id);
          ("url", url); ("trigger_type", trigger_type)] ++
         (if is_None threshold_value then []
          else [("threshold_value", threshold_value)]))%list []).
Proof.
  unfold new_Trigger, construct, Trigger_init.
  destruct (is_None threshold_value); reflexivity.
Qed.

(** ** Claims about the entity store and serialization *)

(** C2: serializing an entity gives a mapping with exactly the fields of
    its store: [__getstate__] returns the store, and the object the encoder
    writes has the store's keys, in the store's order, each with the
    serialization of the stored value.  A [Trigger] built without
    [threshold_value] (or with [None]) holds, and so serializes to, exactly
    [environment_id], [stream_id], [url] and [trigger_type]. *)
Theorem C2_serialized_fields (e : entity) (j : json) :
  dumps (VEntity_of e) = Ok j ->
  (forall w, self w = e -> Base_getstate w = (Ok (_data e), w)) /\
  (exists items,
      j = JObject items /\
      map fst items = dict_keys (_data e) /\
      Forall2 item_serializes (_data e) items) /\
  (forall i environment_id stream_id url trigger_type,
      exists t,
        new_Trigger i environment_id stream_id url trigger_type VNone = Ok t /\
        dict_keys (_data t)
        = ["environment_id"; "stream_id"; "url"; "trigger_type"] /\
        dict_get "threshold_value" (_data t) = None /\
        forall j',
          dumps (VEntity_of t) = Ok j' ->
          exists items,
            j' = JObject items /\
            map fst items
            = ["environment_id"; "stream_id"; "url"; "trigger_type"]).
Proof.
  assert (Hkeys : forall e' j',
             dumps (VEntity_of e') = Ok j' ->
             exists items,
               j' = JObject items /\ map fst items = dict_keys (_data e') /\
               dumps_items (_data e') = Ok items).
  { intros e' j' H. unfold VEntity_of in H. rewrite dumps_VEntity in H.
    apply rmap_Ok in H as (items & Hitems & ->).
    exists items. split; [reflexivity|]. split; [|exact Hitems].
    now apply dumps_items_keys. }
  intros Hj. split; [|split].
  - intros w <-. apply Base_getstate_eq.
  - destruct (Hkeys e j Hj) as (items & -> & Hk & Hitems).
    exists items. split; [reflexivity|]. split; [exact Hk|].
    assert (H : serializes (VDict (_data e)) (JObject items)).
    { apply dumps_serializes. now rewrite dumps_VDict, Hitems. }
    now inversion H.
  - intros i environment_id stream_id url trigger_type.
    eexists. split; [apply new_Trigger_eq|].
    split; [reflexivity|]. split; [reflexivity|].
    intros j' Hj'. destruct (Hkeys _ j' Hj') as (items & -> & Hk & _).
    exists items. split; [reflexivity | exact Hk].
Qed.

Lemma C2_serialized_fields_witness :
  let e := mkentity cls_Trigger 1
             [("environment_id", VInt 8470); ("stream_id", VStr "0");
              ("url", VStr "http://www.postbin.org/1ijyltn");
              ("trigger_type", VStr "changed")] [] in
  let j := JObject
             [("environment_id", JNumber 8470); ("stream_id", JString "0");
              ("url", JString "http://www.postbin.org/1ijyltn");
              ("trigger_type", JString "changed")] in
  dumps (VEntity_of e) = Ok j /\
  exists items,
    j = JObject items /\
    map fst items = dict_keys (_data e) /\
    Forall2 item_serializes (_data e) items.
Proof.
  cbv zeta. split; [reflexivity|].
  refine (proj1 (proj2 (C2_serialized_fields _ _ _))). reflexivity.
Defined.

(** C6: the encoder serializes by one rule throughout the value tree.  What
    it writes for [v] is what the rule [serializes] gives: a nested entity
    contributes the mapping of its own store, a collection is written
    member by member, a timestamp is written as its time-codec rendering,
    and [None], booleans, numbers and strings are written as they are.  On
    the values of the data model it always succeeds. *)
Theorem C6_recursive_serialization (v : value) (j : json) :
  (dumps v = Ok j <-> serializes v j) /\
  (in_data_model v = true -> exists j', dumps v = Ok j') /\
  (forall c i data attrs_,
      dumps (VEntity c i data attrs_) = dumps (VDict data) /\
      dumps (VDict data) = rmap JObject (dumps_items data)) /\
  (forall k x d,
      dumps_items ((k, x) :: d)
      = rbind (dumps x) (fun jx =>
        rbind (dumps_items d) (fun js => Ok ((k, jx) :: js)))) /\
  (forall x l,
      dumps (VList l) = rmap JArray (dumps_elements l) /\
      dumps_elements (x :: l)
      = rbind (dumps x) (fun jx =>
        rbind (dumps_elements l) (fun js => Ok (jx :: js)))) /\
  (forall t, dumps (VDatetime t) = Ok (JString (TimeCodec.encode t))) /\
  dumps VNone = Ok JNull /\
  (forall b, dumps (VBool b) = Ok (JBool b)) /\
  (forall n, dumps (VInt n) = Ok (JNumber n)) /\
  (forall s, dumps (VStr s) = Ok (JString s)).
Proof.
  split; [apply dumps_serializes|].
  split; [apply dumps_total|].
  repeat split.
Qed.



(** Constructing without the nested collection leaves it out of the store. *)
Lemma new_Feed_without_datastreams (i : N) (title : value) (kwargs : dict)
      (e : entity) :
  new_Feed i title kwargs = Ok e ->
  dict_get "datastreams" kwargs = None ->
  dict_get "datastreams" (_data e) = None.
Proof.
  intros H Hk. destruct (dict_has "title" kwargs) eqn:Ht.
  - unfold new_Feed in H. rewrite Ht in H. discriminate.
  - rewrite (new_Feed_eq i title kwargs Ht) in H. injection H as <-.
    cbn [_data]. rewrite Hk. now apply dict_get_update_absent.
Qed.

Lemma new_Datastream_without_datapoints (i : N) (id : value) (kwargs : dict)
      (e : entity) :
  new_Datastream i id kwargs = Ok e ->
  dict_get "datapoints" kwargs = None ->
  dict_get "datapoints" (_data e) = None.
Proof.
  intros H Hk. destruct (dict_has "id" kwargs) eqn:Ht.
  - unfold new_Datastream in H. rewrite Ht in H. discriminate.
  - rewrite (new_Datastream_eq i id kwargs Ht) in H. injection H as <-.
    cbn [_data]. rewrite Hk. now apply dict_get_update_absent.
Qed.

(** ** Claims about attribute access and the nested collections *)





(** ** Claims about update and delete *)

(** C8: a datapoint bound to a manager.  [update] calls the manager's
    [update] with the [at] timestamp as identity and, as fields, the store
    without [at]: [at] is gone from the body and every other field is there
    with its value.  [delete] calls the manager's [delete] with [at].
    Neither changes the entity.  The request the manager makes for either
    call goes to the collection URL, a slash, and the time-codec rendering
    of [at]. *)
Theorem C8_datapoint_update_delete (w : world) (k : manager_class) (p : N)
        (t : datetime) (collection_url : string) :
  cls (self w) = cls_Datapoint ->
  instance_ok (self w) = true ->
  dict_get "_manager" (attrs (self w)) = Some (VManager k p) ->
  dict_get "at" (_data (self w)) = Some (VDatetime t) ->
  let manager := VManager k p in
  let fields := dict_del "at" (_data (self w)) in
  let item := collection_url ++ "/" ++ TimeCodec.encode t in
  Datapoint_update w
  = (Ok tt, with_call (call_update manager (VDatetime t) fields) w) /\
  dict_get "at" fields = None /\
  (forall name, name <> "at" ->
                dict_get name fields = dict_get name (_data (self w))) /\
  Datapoint_delete w
  = (Ok tt, with_call (call_delete manager (VDatetime t)) w) /\
  Manager.request_of collection_url
    (call_update manager (VDatetime t) fields)
  = Some (Manager.mkapi_request "PUT" item (Some fields)) /\
  Manager.request_of collection_url (call_delete manager (VDatetime t))
  = Some (Manager.mkapi_request "DELETE" item None).
Proof.
  intros Hc Hok Hm Ha. cbv zeta. split; [|split; [|split; [|split; [|split]]]].
  - now apply Datapoint_update_bound.
  - apply dict_get_del_eq.
  - intros name Hne. now apply dict_get_del_neq.
  - now apply Datapoint_delete_bound.
  - reflexivity.
  - reflexivity.
Qed.

Lemma C8_datapoint_update_delete_witness :
  let at_ := mkdatetime 2010 7 28 7 48 22 14326 None in
  let manager := VManager DatapointsManager 7 in
  let w := mkworld (mkentity cls_Datapoint 9
                      [("at", VDatetime at_); ("value", VStr "297")]
                      [("_manager", manager)]) [] in
  Datapoint_update w
  = (Ok tt, with_call (call_update manager (VDatetime at_)
                                   [("value", VStr "297")]) w) /\
  Manager.request_of "/v2/feeds/1977/datastreams/1/datapoints"
    (call_delete manager (VDatetime at_))
  = Some (Manager.mkapi_request "DELETE"
            "/v2/feeds/1977/datastreams/1/datapoints/2010-07-28T07:48:22.014326Z"
            None).
Proof.
  cbv zeta.
  pose proof (C8_datapoint_update_delete
                (mkworld (mkentity cls_Datapoint 9
                            [("at", VDatetime (mkdatetime 2010 7 28 7 48 22 14326 None));
                             ("value", VStr "297")]
                            [("_manager", VManager DatapointsManager 7)]) [])
                DatapointsManager 7 (mkdatetime 2010 7 28 7 48 22 14326 None)
                "/v2/feeds/1977/datastreams/1/datapoints"
                eq_refl eq_refl eq_refl eq_refl) as H.
  cbv zeta in H. split; [exact (proj1 H) | exact (proj2 (proj2 (proj2 (proj2 (proj2 H)))))].
Defined.

(** C10: a feed's [update] and [delete] hand the bound manager the value of
    the [feed] field as identity, whatever the [id] field holds.  When the
    store has no [feed] field both fail with [AttributeError], and no call
    to a manager has been made: the record of calls, and the whole world,
    is as before. *)
Theorem C10_feed_identity (w : world) :
  cls (self w) = cls_Feed ->
  instance_ok (self w) = true ->
  (forall k p u,
      dict_get "_manager" (attrs (self w)) = Some (VManager k p) ->
      dict_get "feed" (_data (self w)) = Some u ->
      Feed_update w
      = (Ok tt, with_call (call_update (VManager k p) u (_data (self w))) w) /\
      Feed_delete w = (Ok tt, with_call (call_delete (VManager k p) u) w)) /\
  (forall k p,
      dict_get "_manager" (attrs (self w)) = Some (VManager k p) ->
      dict_get "feed" (_data (self w)) = None ->
      Feed_update w = (Raise (AttributeError "Feed" "feed"), w) /\
      Feed_delete w = (Raise (AttributeError "Feed" "feed"), w)) /\
  (dict_get "feed" (_data (self w)) = None ->
   (exists c n, Feed_update w = (Raise (AttributeError c n), w)) /\
   (exists c n, Feed_delete w = (Raise (AttributeError c n), w))).
Proof.
  intros Hc Hok. split; [|split].
  - intros k p u Hm Hf. split.
    + now apply Feed_update_bound.
    + now apply Feed_delete_bound.
  - intros k p Hm Hf. split.
    + unfold Feed_update, bind.
      rewrite (getattr_manager_bound w _ Hm). cbn [method_of ret].
      rewrite getattr_field, Hf, Hc by (auto using class_lookup_feed).
      reflexivity.
    + unfold Feed_delete, bind.
      rewrite (getattr_manager_bound w _ Hm). cbn [method_of ret].
      rewrite getattr_field, Hf, Hc by (auto using class_lookup_feed).
      reflexivity.
  - intros Hf. split.
    + now apply Feed_update_without_feed.
    + now apply Feed_delete_without_feed.
Qed.

Lemma C10_feed_identity_witness :
  let manager := VManager FeedsManager 3 in
  let store := [("title", VStr "Office"); ("id", VStr "123");
                ("feed", VStr "http://api.cosm.com/v2/feeds/123")] in
  let w := mkworld (mkentity cls_Feed 1 store [("_manager", manager)]) [] in
  Feed_update w
  = (Ok tt, with_call (call_update manager
                         (VStr "http://api.cosm.com/v2/feeds/123") store) w) /\
  Feed_delete w
  = (Ok tt, with_call (call_delete manager
                         (VStr "http://api.cosm.com/v2/feeds/123")) w).
Proof.
  cbv zeta.
  refine (proj1 (C10_feed_identity
                   (mkworld (mkentity cls_Feed 1
                               [("title", VStr "Office"); ("id", VStr "123");
                                ("feed", VStr "http://api.cosm.com/v2/feeds/123")]
                               [("_manager", VManager FeedsManager 3)]) [])
                   eq_refl eq_refl) FeedsManager 3%N _ eq_refl eq_refl).
Defined.

(** ** urljoin *)

Section UrljoinFacts.
Import urllib_parse.

Lemma mem_relative_netloc (s : string) :
  mem s uses_relative = true -> mem s uses_netloc = true.
Proof.
  unfold mem, uses_relative. cbn [existsb]. rewrite !orb_true_iff.
  intros H.
  repeat (destruct H as [H|H];
          [apply String.eqb_eq in H; subst s; reflexivity|]).
  discriminate.
Qed.

(** The parse of a URL past its scheme does not depend on the scheme but
    for recording it. *)
Lemma split_rest_scheme (s1 s2 url : string) (r : SplitResult) :
  split_rest s1 url = Ok r ->
  split_rest s2 url
  = Ok (mkSplitResult s2 (sr_netloc r) (sr_path r) (sr_query r) (sr_fragment r)).
Proof.
  unfold split_rest.
  destruct (match url with
            | String "/" (String "/" rest) => span_netloc rest
            | _ => (EmptyString, url)
            end) as [nl url1].
  destruct (contains "[" nl && negb (contains "]" nl)
            || contains "]" nl && negb (contains "[" nl)); [discriminate|].
  destruct (match split1 "#" url1 with
            | Some (a, b) => (a, b)
            | None => (url1, EmptyString)
            end) as [url2 frag].
  destruct (match split1 "?" url2 with
            | Some (a, b) => (a, b)
            | None => (url2, EmptyString)
            end) as [url3 qry].
  now intros [= <-].
Qed.

Lemma split_rest_records_scheme (s url : string) (r : SplitResult) :
  split_rest s url = Ok r -> sr_scheme r = s.
Proof.
  intros H. pose proof (split_rest_scheme s s url r H) as H'.
  rewrite H in H'. now injection H' as ->.
Qed.

(** A URL with a scheme of its own parses the same whatever the default. *)
Lemma urlparse_own_scheme (url d1 d2 sch rest : string) :
  split_scheme url = Some (sch, rest) ->
  urlparse url d1 = urlparse url d2.
Proof. intros H. unfold urlparse, urlsplit. now rewrite H. Qed.

Lemma urlparse_absolute (url d : string) :
  absolute url = true ->
  exists u, urlparse url d = Ok u /\ nonempty (netloc u) = true /\
            nonempty (scheme u) = true.
Proof.
  unfold absolute, urlparse, urlsplit.
  destruct (split_scheme url) as [[sch rest]|] eqn:Hs; [|discriminate].
  destruct (split_rest sch rest) as [r|] eqn:Hr; [|discriminate].
  intros Hn. cbn [rbind].
  destruct (if mem (sr_scheme r) uses_params && contains ";" (sr_path r)
            then splitparams (sr_path r) else (sr_path r, ""))
    as [pth prm].
  eexists. split; [reflexivity|]. cbn [netloc scheme]. split; [exact Hn|].
  rewrite (split_rest_records_scheme _ _ _ Hr).
  unfold split_scheme in Hs.
  destruct (split1 ":" url) as [[before rest']|]; [|discriminate].
  destruct before as [|c before]; [discriminate|].
  destruct (String.eqb (String c before) "http").
  - now injection Hs as <- _.
  - destruct (all_chars is_scheme_char (String c before)); [|discriminate].
    destruct (String.eqb rest' "" || negb (all_chars is_digit rest'));
      [|discriminate].
    now injection Hs as <- _.
Qed.

(** An absolute URL overrides the base: the result is the URL itself when
    its scheme is not the base's (or does not allow relative references),
    and otherwise the URL as [urlunparse] spells its parse.  Nothing of the
    base's location enters. *)
Lemma urljoin_absolute (base url : string) (b u : ParseResult) :
  nonempty base = true ->
  urlparse base "" = Ok b ->
  absolute url = true ->
  urlparse url "" = Ok u ->
  urljoin base url
  = Ok (if negb (String.eqb (scheme u) (scheme b)) ||
           negb (mem (scheme u) uses_relative)
        then url else urlunparse u).
Proof.
  intros Hb Hpb Ha Hu. unfold urljoin. rewrite Hb. cbn [negb].
  assert (Hne : nonempty url = true).
  { destruct url; [discriminate Ha | reflexivity]. }
  rewrite Hne, Hpb. cbn [negb rbind].
  assert (Hu' : urlparse url (scheme b) = Ok u).
  { unfold absolute in Ha.
    destruct (split_scheme url) as [[sch rest]|] eqn:Hs; [|discriminate].
    now rewrite (urlparse_own_scheme url (scheme b) "" sch rest Hs). }
  rewrite Hu'. cbn [rbind].
  destruct (negb (String.eqb (scheme u) (scheme b)) ||
            negb (mem (scheme u) uses_relative)) eqn:E; [reflexivity|].
  apply orb_false_iff in E as [_ E]. apply negb_false_iff in E.
  rewrite (mem_relative_netloc _ E).
  destruct (urlparse_absolute url "" Ha) as (u' & Hu2 & Hn & _).
  rewrite Hu in Hu2. injection Hu2 as <-. now rewrite Hn.
Qed.

Lemma urlparse_relative (url d : string) :
  relative url = true ->
  exists u, urlparse url d = Ok u /\ scheme u = d /\ netloc u = "".
Proof.
  unfold relative, urlparse, urlsplit.
  destruct (split_scheme url) as [[sch rest]|]; [discriminate|].
  destruct (split_rest "" url) as [r|] eqn:Hr; [|discriminate].
  intros Hn. rewrite (split_rest_scheme "" d url r Hr). cbn [rbind sr_scheme sr_path sr_netloc sr_query sr_fragment].
  destruct (if mem d uses_params && contains ";" (sr_path r)
            then splitparams (sr_path r) else (sr_path r, ""))
    as [pth prm].
  eexists. split; [reflexivity|]. cbn [scheme netloc].
  split; [reflexivity|].
  unfold nonempty in Hn. apply negb_true_iff, negb_false_iff in Hn.
  now apply String.eqb_eq in Hn.
Qed.

(** A relative URL is resolved against the base: the result is written
    with the base's scheme and network location. *)
Lemma urljoin_relative (base url : string) (b : ParseResult) :
  nonempty base = true -> nonempty url = true ->
  urlparse base "" = Ok b ->
  mem (scheme b) uses_relative = true ->
  relative url = true ->
  exists p, urljoin base url = Ok (urlunparse p) /\
            scheme p = scheme b /\ netloc p = netloc b.
Proof.
  intros Hb Hne Hpb Hrel Hr. unfold urljoin.
  rewrite Hb, Hne, Hpb. cbn [negb rbind].
  destruct (urlparse_relative url (scheme b) Hr) as (u & -> & Hs & Hn).
  cbn [rbind]. rewrite Hs, String.eqb_refl, Hrel. cbn [negb orb].
  rewrite (mem_relative_netloc _ Hrel), Hn. cbn [nonempty String.eqb negb andb].
  destruct (negb (nonempty (path u)) && negb (nonempty (params u)));
    eexists; (split; [reflexivity|]); cbn [scheme netloc]; auto.
Qed.

End UrljoinFacts.

(** ** Claims about the client *)




(** * Further properties of the code *)

(** ** Construction *)

Lemma dict_keys_del_incl {V : Type} (k k' : string) (d : @dict_of V) :
  In k (dict_keys (dict_del k' d)) -> In k (dict_keys d).
Proof.
  induction d as [|[k2 v2] d IH]; simpl; [tauto|].
  destruct (String.eqb k' k2); simpl; tauto.
Qed.

Lemma dict_del_NoDup {V : Type} (k : string) (d : @dict_of V) :
  NoDup (dict_keys d) -> NoDup (dict_keys (dict_del k d)).
Proof.
  induction d as [|[k2 v2] d IH]; simpl; intros H; [constructor|].
  inversion H as [|? ? Hn Hd]; subst.
  destruct (String.eqb k k2); [now apply IH|].
  simpl. constructor; [|now apply IH].
  intros Hin. apply Hn. now apply dict_keys_del_incl in Hin.
Qed.

(** [d.update(kw)] for a [kw] with distinct keys: the keys of [kw] take
    the values of [kw], the others keep theirs. *)
Lemma dict_get_update {V : Type} (k : string) (d kw : @dict_of V) :
  NoDup (dict_keys kw) ->
  dict_get k (dict_update d kw)
  = match dict_get k kw with
    | Some v => Some v
    | None => dict_get k d
    end.
Proof.
  unfold dict_update. revert d.
  induction kw as [|[k' v'] kw IH]; intros d Hnd; [reflexivity|].
  inversion Hnd as [|? ? Hn Hd]; subst. cbn [fold_left fst snd dict_get].
  rewrite IH by assumption.
  destruct (String.eqb_spec k k') as [->|Hne].
  - apply dict_get_keys in Hn. rewrite Hn. apply dict_get_set_eq.
  - destruct (dict_get k kw); [reflexivity|]. now apply dict_get_set_neq.
Qed.





(** X3: [Trigger(environment_id, stream_id, url, trigger_type,
    threshold_value)] always builds a trigger.  Its store holds the four
    required fields with the values given, in that order, and
    [threshold_value] after them exactly when the value given is not
    [None]; a trigger so built serializes with [threshold_value] as its
    last key when it is given. *)
Theorem X3_new_Trigger (i : N) (environment_id stream_id url trigger_type
                        threshold_value : value) :
  exists t,
    new_Trigger i environment_id stream_id url trigger_type threshold_value
    = Ok t /\
    cls t = cls_Trigger /\ attrs t = [] /\
    dict_get "environment_id" (_data t) = Some environment_id /\
    dict_get "stream_id" (_data t) = Some stream_id /\
    dict_get "url" (_data t) = Some url /\
    dict_get "trigger_type" (_data t) = Some trigger_type /\
    dict_get "threshold_value" (_data t)
    = (if is_None threshold_value then None else Some threshold_value) /\
    dict_keys (_data t)
    = (["environment_id"; "stream_id"; "url"; "trigger_type"] ++
       (if is_None threshold_value then [] else ["threshold_value"]))%list /\
    forall j, dumps (VEntity_of t) = Ok j ->
              exists items, j = JObject items /\
                            map fst items = dict_keys (_data t).
Proof.
  rewrite new_Trigger_eq. eexists. split; [reflexivity|].
  cbn [cls attrs _data].
  do 6 (split; [reflexivity|]).
  split; [now destruct (is_None threshold_value)|].
  split; [now destruct (is_None threshold_value)|].
  intros j Hj. unfold VEntity_of in Hj. rewrite dumps_VEntity in Hj.
  apply rmap_Ok in Hj as (items & Hitems & ->).
  exists items. split; [reflexivity|]. now apply dumps_items_keys.
Qed.

(** ** Assigning attributes *)

Lemma property_not_private (c : pyclass) (name : string) :
  class_lookup c name = Some property -> startswith name "_" = false.
Proof.
  intros H. apply class_lookup_property in H as [[_ ->]|[_ ->]]; reflexivity.
Qed.

Lemma Base_setattr_field (name : string) (v : value) (w : world) :
  startswith name "_" = false -> in_dir (cls (self w)) name = false ->
  Base_setattr name v w = (Ok tt, with_item name v w).
Proof.
  intros Hs Hd. unfold Base_setattr, bind, get_self.
  now rewrite Hs, Hd.
Qed.

Lemma Base_setattr_instance (name : string) (v : value) (w : world) :
  startswith name "_" || in_dir (cls (self w)) name = true ->
  class_lookup (cls (self w)) name <> Some property ->
  name <> "_data" ->
  Base_setattr name v w = (Ok tt, with_attr name v w).
Proof.
  intros Hb Hp Hd. unfold Base_setattr, bind, get_self.
  assert (Hc : negb (startswith name "_") && negb (in_dir (cls (self w)) name)
               = false).
  { destruct (startswith name "_"), (in_dir (cls (self w)) name);
      simpl in *; congruence. }
  rewrite Hc. unfold object_setattr, bind, get_self.
  assert (Hset : set_instance_attr name v w = (Ok tt, with_attr name v w)).
  { unfold set_instance_attr, bind, get_self.
    apply String.eqb_neq in Hd. now rewrite Hd. }
  destruct (cls (self w)); destruct (class_lookup _ name) as [[]|];
    try exact Hset; congruence.
Qed.

(** The read of a name does not see an assignment to another field. *)
Lemma getattr_with_item_other (name other : string) (v : value) (w : world) :
  other <> name -> other <> "_data" ->
  fst (getattr other (with_item name v w)) = fst (getattr other w).
Proof.
  intros Hne Hd.
  destruct (class_lookup (cls (self w)) other) as [[]|] eqn:Hc.
  - pose proof Hc as Hp. apply class_lookup_property in Hp.
    destruct Hp as [[Hcls ->]|[Hcls ->]].
    + rewrite (getattr_nested (with_item name v w)
                 "datastreams" "_datastreams" DatastreamsManager)
        by (cbn [with_item self cls]; now rewrite Hcls).
      rewrite (getattr_nested w "datastreams" "_datastreams" DatastreamsManager)
        by now rewrite Hcls.
      cbv zeta. cbn [with_item self attrs]. unfold manager_of. cbn [oid].
      destruct (dict_get "_datastreams" _) as [x|]; [destruct (is_None x)|];
        reflexivity.
    + rewrite (getattr_nested (with_item name v w)
                 "datapoints" "_datapoints" DatapointsManager)
        by (cbn [with_item self cls]; now rewrite Hcls).
      rewrite (getattr_nested w "datapoints" "_datapoints" DatapointsManager)
        by now rewrite Hcls.
      cbv zeta. cbn [with_item self attrs]. unfold manager_of. cbn [oid].
      destruct (dict_get "_datapoints" _) as [x|]; [destruct (is_None x)|];
        reflexivity.
  - rewrite !getattr_plain, !lookup_attr_eq
      by (cbn [with_item self cls]; congruence).
    cbn [with_item self cls attrs _data fst]. rewrite Hc.
    destruct (String.eqb_spec other "_data") as [E|_]; [now elim Hd|].
    now destruct (dict_get other _).
  - rewrite !getattr_plain, !lookup_attr_eq
      by (cbn [with_item self cls]; congruence).
    cbn [with_item self cls attrs _data fst]. rewrite Hc.
    destruct (String.eqb_spec other "_data") as [E|_]; [now elim Hd|].
    now destruct (dict_get other _).
  - rewrite !getattr_plain, !lookup_attr_eq
      by (cbn [with_item self cls]; congruence).
    cbn [with_item self cls attrs _data fst]. rewrite Hc.
    rewrite dict_get_set_neq by assumption.
    destruct (String.eqb_spec other "_data") as [E|_]; [now elim Hd|].
    reflexivity.
Qed.

(** X4: assigning a field.  For a name that does not start with an
    underscore and that the class does not have, [e.name = v] puts [v] in
    the store under [name] and changes nothing else: [__getstate__] then
    returns the store with [name] bound to [v], reading [e.name] gives [v]
    back, and every other attribute reads as before. *)
Theorem X4_setattr_field (w : world) (name : string) (v : value) :
  instance_ok (self w) = true ->
  startswith name "_" = false ->
  in_dir (cls (self w)) name = false ->
  Base_setattr name v w = (Ok tt, with_item name v w) /\
  Base_getstate (with_item name v w)
  = (Ok (dict_set name v (_data (self w))), with_item name v w) /\
  attrs (self (with_item name v w)) = attrs (self w) /\
  calls (with_item name v w) = calls w /\
  getattr name (with_item name v w) = (Ok v, with_item name v w) /\
  (forall other, other <> name -> other <> "_data" ->
                 fst (getattr other (with_item name v w))
                 = fst (getattr other w)).
Proof.
  intros Hok Hs Hd.
  split; [now apply Base_setattr_field|].
  split; [reflexivity|]. split; [reflexivity|]. split; [reflexivity|]. split.
  - rewrite getattr_field.
    + cbn [with_item self _data]. now rewrite dict_get_set_eq.
    + exact Hok.
    + cbn [with_item self cls]. unfold in_dir in Hd.
      now destruct (class_lookup (cls (self w)) name).
    + exact Hs.
  - intros other Hne Hnd. now apply getattr_with_item_other.
Qed.

Lemma X4_setattr_field_witness :
  let w := mkworld (mkentity cls_Feed 1 [("title", VStr "Office")] []) [] in
  Base_setattr "private" (VBool true) w
  = (Ok tt, with_item "private" (VBool true) w) /\
  getattr "private" (with_item "private" (VBool true) w)
  = (Ok (VBool true), with_item "private" (VBool true) w).
Proof.
  cbv zeta.
  pose proof (X4_setattr_field
                (mkworld (mkentity cls_Feed 1 [("title", VStr "Office")] []) [])
                "private" (VBool true) eq_refl eq_refl eq_refl) as H.
  split; [exact (proj1 H) | exact (proj1 (proj2 (proj2 (proj2 (proj2 H)))))].
Defined.



(** ** update and delete, further *)

(** X6: a datastream bound to a manager.  [update] calls the manager's
    [update] with the [id] field as identity and the whole store as
    fields, [id] included; [delete] calls the manager's [delete] with
    [id].  Neither changes the entity. *)
Theorem X6_datastream_update_delete (w : world) (k : manager_class) (p : N)
        (id : value) :
  instance_ok (self w) = true ->
  dict_get "_manager" (attrs (self w)) = Some (VManager k p) ->
  dict_get "id" (_data (self w)) = Some id ->
  Datastream_update w
  = (Ok tt, with_call (call_update (VManager k p) id (_data (self w))) w) /\
  Datastream_delete w
  = (Ok tt, with_call (call_delete (VManager k p) id) w) /\
  dict_get "id" (_data (self w)) = Some id.
Proof.
  intros Hok Hm Hi. split; [|split; [|exact Hi]].
  - unfold Datastream_update, bind. rewrite Base_getstate_eq. cbv beta iota.
    rewrite (getattr_manager_bound w _ Hm). cbn [method_of ret].
    rewrite getattr_field, Hi by (auto using class_lookup_id).
    reflexivity.
  - unfold Datastream_delete, bind.
    rewrite (getattr_manager_bound w _ Hm). cbn [method_of ret].
    rewrite getattr_field, Hi by (auto using class_lookup_id).
    reflexivity.
Qed.

Lemma X6_datastream_update_delete_witness :
  let manager := VManager DatastreamsManager 1 in
  let store := [("id", VStr "energy"); ("current_value", VInt 294)] in
  let w := mkworld (mkentity cls_Datastream 2 store [("_manager", manager)]) [] in
  Datastream_update w
  = (Ok tt, with_call (call_update manager (VStr "energy") store) w).
Proof.
  cbv zeta.
  refine (proj1 (X6_datastream_update_delete
     (mkworld (mkentity cls_Datastream 2
                 [("id", VStr "energy"); ("current_value", VInt 294)]
                 [("_manager", VManager DatastreamsManager 1)]) [])
     DatastreamsManager 1 (VStr "energy") eq_refl eq_refl eq_refl)).
Defined.

Lemma getattr_manager_unbound (w : world) :
  dict_get "_manager" (attrs (self w)) = None ->
  dict_get "_manager" (_data (self w)) = None ->
  getattr "_manager" w
  = (Raise (AttributeError (class_name (cls (self w))) "_manager"), w).
Proof.
  intros Ha Hs.
  rewrite getattr_unclassed, Ha, Hs;
    [reflexivity | apply class_lookup_manager | reflexivity].
Qed.

(** X7: an entity bound to no manager.  When neither the instance
    dictionary nor the store has [_manager], every [update] and [delete]
    raises [AttributeError] naming the class and [_manager]; no manager is
    called and the entity is as before. *)
Theorem X7_unbound_update_delete (w : world) :
  dict_get "_manager" (attrs (self w)) = None ->
  dict_get "_manager" (_data (self w)) = None ->
  let missing := AttributeError (class_name (cls (self w))) "_manager" in
  Feed_update w = (Raise missing, w) /\
  Feed_delete w = (Raise missing, w) /\
  Datastream_update w = (Raise missing, w) /\
  Datastream_delete w = (Raise missing, w) /\
  Datapoint_update w = (Raise missing, w) /\
  Datapoint_delete w = (Raise missing, w).
Proof.
  intros Ha Hs. cbv zeta.
  pose proof (getattr_manager_unbound w Ha Hs) as Hg.
  unfold Feed_update, Feed_delete, Datastream_update, Datastream_delete,
    Datapoint_update, Datapoint_delete, bind.
  rewrite !Base_getstate_eq. cbv beta iota. rewrite Hg.
  repeat split.
Qed.

Lemma X7_unbound_update_delete_witness :
  let w := mkworld (mkentity cls_Feed 1 [("title", VStr "Office")] []) [] in
  Feed_update w = (Raise (AttributeError "Feed" "_manager"), w).
Proof.
  cbv zeta.
  refine (proj1 (X7_unbound_update_delete
     (mkworld (mkentity cls_Feed 1 [("title", VStr "Office")] []) [])
     eq_refl eq_refl)).
Defined.

(** X8: a bound datapoint whose store has lost [at].  [update] raises
    [KeyError] for [at], from [state.pop]; [delete] raises
    [AttributeError] naming [Datapoint] and [at], from the attribute read.
    Neither calls the manager. *)
Theorem X8_datapoint_without_at (w : world) (k : manager_class) (p : N) :
  cls (self w) = cls_Datapoint ->
  instance_ok (self w) = true ->
  dict_get "_manager" (attrs (self w)) = Some (VManager k p) ->
  dict_get "at" (_data (self w)) = None ->
  Datapoint_update w = (Raise (KeyError "at"), w) /\
  Datapoint_delete w = (Raise (AttributeError "Datapoint" "at"), w).
Proof.
  intros Hc Hok Hm Ha. split.
  - unfold Datapoint_update, bind. rewrite Base_getstate_eq. cbv beta iota.
    rewrite (getattr_manager_bound w _ Hm). cbn [method_of ret].
    unfold lift, dict_pop. now rewrite Ha.
  - unfold Datapoint_delete, bind.
    rewrite (getattr_manager_bound w _ Hm). cbn [method_of ret].
    rewrite getattr_field, Ha, Hc by (auto using class_lookup_at).
    reflexivity.
Qed.

Lemma X8_datapoint_without_at_witness :
  let w := mkworld (mkentity cls_Datapoint 9 [("value", VStr "297")]
                      [("_manager", VManager DatapointsManager 7)]) [] in
  Datapoint_update w = (Raise (KeyError "at"), w) /\
  Datapoint_delete w = (Raise (AttributeError "Datapoint" "at"), w).
Proof.
  cbv zeta.
  exact (X8_datapoint_without_at
     (mkworld (mkentity cls_Datapoint 9 [("value", VStr "297")]
                 [("_manager", VManager DatapointsManager 7)]) [])
     DatapointsManager 7 eq_refl eq_refl eq_refl eq_refl).
Defined.

(** Reading a name no class has leaves the world as it is. *)
Lemma getattr_unclassed_world (name : string) (w : world) :
  (forall c, class_lookup c name = None) ->
  String.eqb name "_data" = false ->
  exists r, getattr name w = (r, w).
Proof.
  intros Hc Hd. rewrite getattr_unclassed by auto. eauto.
Qed.


(** ** The instance dictionary, throughout *)


(** ** Assigning, then updating *)

(** X11: what [update] sends after an assignment.  On a feed bound to a
    manager, [feed.name = v] for a field name other than [feed], followed
    by [feed.update()], calls the manager once, with the [feed] field as
    identity and the store with [name] bound to [v] as fields: the new
    value is in the body, and every other field is there as before. *)
Theorem X11_assign_then_update (w : world) (k : manager_class) (p : N)
        (u v : value) (name : string) :
  instance_ok (self w) = true ->
  dict_get "_manager" (attrs (self w)) = Some (VManager k p) ->
  dict_get "feed" (_data (self w)) = Some u ->
  startswith name "_" = false ->
  in_dir (cls (self w)) name = false ->
  name <> "feed" ->
  let fields := dict_set name v (_data (self w)) in
  (Base_setattr name v ;; Feed_update)%py w
  = (Ok tt, with_call (call_update (VManager k p) u fields)
                      (with_item name v w)) /\
  dict_get name fields = Some v /\
  (forall other, other <> name ->
                 dict_get other fields = dict_get other (_data (self w))).
Proof.
  intros Hok Hm Hf Hs Hd Hne. cbv zeta. split; [|split].
  - unfold bind at 1. rewrite (Base_setattr_field name v w Hs Hd).
    apply Feed_update_bound.
    + exact Hok.
    + exact Hm.
    + cbn [with_item self _data]. rewrite dict_get_set_neq; [exact Hf|].
      congruence.
  - apply dict_get_set_eq.
  - intros other Ho. now apply dict_get_set_neq.
Qed.

Lemma X11_assign_then_update_witness :
  let manager := VManager FeedsManager 3 in
  let url := VStr "http://api.cosm.com/v2/feeds/123" in
  let w := mkworld (mkentity cls_Feed 1
                      [("title", VStr "Office"); ("id", VStr "123");
                       ("feed", url)]
                      [("_manager", manager)]) [] in
  calls (snd ((Base_setattr "private" (VBool true) ;; Feed_update)%py w))
  = [call_update manager url
       [("title", VStr "Office"); ("id", VStr "123"); ("feed", url);
        ("private", VBool true)]].
Proof.
  cbv zeta.
  rewrite (proj1 (X11_assign_then_update
     (mkworld (mkentity cls_Feed 1
                 [("title", VStr "Office"); ("id", VStr "123");
                  ("feed", VStr "http://api.cosm.com/v2/feeds/123")]
                 [("_manager", VManager FeedsManager 3)]) [])
     FeedsManager 3 (VStr "http://api.cosm.com/v2/feeds/123") (VBool true)
     "private" eq_refl eq_refl eq_refl eq_refl eq_refl
     ltac:(discriminate))).
  reflexivity.
Defined.


(** ** The encoder, further *)

Lemma dumps_elements_serializable (l : list value) :
  Forall (fun v =>
            (serializable v = true -> exists j, dumps v = Ok j) /\
            (serializable v = false -> dumps v = Raise TypeError)) l ->
  (forallb serializable l = true -> exists js, dumps_elements l = Ok js) /\
  (forallb serializable l = false -> dumps_elements l = Raise TypeError).
Proof.
  induction 1 as [|v l [Hy Hn] _ [IHy IHn]]; cbn [forallb].
  - split; [now exists [] | discriminate].
  - rewrite dumps_elements_cons. destruct (serializable v); cbn [andb].
    + destruct (Hy eq_refl) as [j ->]. cbn [rbind]. split.
      * intros Hl. destruct (IHy Hl) as [js ->]. cbn. eauto.
      * intros Hl. now rewrite (IHn Hl).
    + rewrite (Hn eq_refl). split; [discriminate | reflexivity].
Qed.

Lemma dumps_items_serializable (d : dict) :
  Forall (fun kv =>
            (serializable (snd kv) = true -> exists j, dumps (snd kv) = Ok j) /\
            (serializable (snd kv) = false -> dumps (snd kv) = Raise TypeError)) d ->
  (forallb (fun kv => serializable (snd kv)) d = true ->
   exists js, dumps_items d = Ok js) /\
  (forallb (fun kv => serializable (snd kv)) d = false ->
   dumps_items d = Raise TypeError).
Proof.
  induction 1 as [|[k v] d [Hy Hn] _ [IHy IHn]]; cbn [forallb].
  - split; [now exists [] | discriminate].
  - rewrite dumps_items_cons. cbn [snd] in *.
    destruct (serializable v); cbn [andb].
    + destruct (Hy eq_refl) as [j ->]. cbn [rbind]. split.
      * intros Hl. destruct (IHy Hl) as [js ->]. cbn. eauto.
      * intros Hl. now rewrite (IHn Hl).
    + rewrite (Hn eq_refl). split; [discriminate | reflexivity].
Qed.

Lemma dumps_serializable (v : value) :
  (serializable v = true -> exists j, dumps v = Ok j) /\
  (serializable v = false -> dumps v = Raise TypeError).
Proof.
  induction v as [| b | n | s | t | l IH | d IH | c i data attrs_ IH
                 | k parent | state IH | | name]
    using value_induction;
    try (split; [eexists; reflexivity | discriminate]);
    try (split; [discriminate | reflexivity]).
  - rewrite dumps_VList. cbn [serializable].
    destruct (dumps_elements_serializable l IH) as [Hy Hn]. split.
    + intros H. destruct (Hy H) as [js ->]. cbn. eauto.
    + intros H. now rewrite (Hn H).
  - rewrite dumps_VDict. cbn [serializable].
    destruct (dumps_items_serializable d IH) as [Hy Hn]. split.
    + intros H. destruct (Hy H) as [js ->]. cbn. eauto.
    + intros H. now rewrite (Hn H).
  - rewrite dumps_VEntity. cbn [serializable].
    destruct (dumps_items_serializable data IH) as [Hy Hn]. split.
    + intros H. destruct (Hy H) as [js ->]. cbn. eauto.
    + intros H. now rewrite (Hn H).
  - exact IH.
Qed.

Lemma dumps_raises (v : value) (x : exn) :
  dumps v = Raise x -> x = TypeError.
Proof.
  destruct (dumps_serializable v) as [Hy Hn].
  destruct (serializable v).
  - destruct (Hy eq_refl) as [j ->]. discriminate.
  - rewrite (Hn eq_refl). now intros [= <-].
Qed.


Lemma dumps_elements_as_plain (l : list value) :
  Forall (fun v => dumps (as_plain v) = dumps v) l ->
  dumps_elements (map as_plain l) = dumps_elements l.
Proof.
  induction 1 as [|v l Hv _ IH]; [reflexivity|].
  cbn [map]. now rewrite !dumps_elements_cons, Hv, IH.
Qed.

Lemma dumps_items_as_plain (d : dict) :
  Forall (fun kv => dumps (as_plain (snd kv)) = dumps (snd kv)) d ->
  dumps_items (map (fun kv => (fst kv, as_plain (snd kv))) d) = dumps_items d.
Proof.
  induction 1 as [|[k v] d Hv _ IH]; [reflexivity|].
  cbn [map fst snd] in *. now rewrite !dumps_items_cons, Hv, IH.
Qed.

(** X14: only the stores count.  The encoder writes for a value what it
    writes for the value with every entity replaced by the plain mapping
    of its store and every object by its state, at any depth.  The class
    of an entity, its identity and its instance dictionary (the manager it
    is bound to, the handle it has cached) never reach the output. *)
Theorem X14_dumps_as_plain (v : value) :
  dumps (as_plain v) = dumps v /\
  (forall c i data attrs1 c' i' attrs2,
      dumps (VEntity c i data attrs1) = dumps (VEntity c' i' data attrs2)).
Proof.
  split; [|reflexivity].
  induction v as [| b | n | s | t | l IH | d IH | c i data attrs_ IH
                 | k parent | state IH | | name]
    using value_induction; try reflexivity.
  - cbn [as_plain]. rewrite !dumps_VList. now rewrite dumps_elements_as_plain.
  - cbn [as_plain]. rewrite !dumps_VDict. now rewrite dumps_items_as_plain.
  - cbn [as_plain]. rewrite dumps_VDict, dumps_VEntity.
    now rewrite dumps_items_as_plain.
  - exact IH.
Qed.

(** ** The client, further *)

Section ClientFacts.
Import urllib_parse.

Lemma split_rest_raises (sch url : string) (x : exn) :
  split_rest sch url = Raise x -> x = ValueError.
Proof.
  unfold split_rest.
  destruct (match url with
            | String "/" (String "/" rest) => span_netloc rest
            | _ => (EmptyString, url)
            end) as [nl url1].
  destruct (contains "[" nl && negb (contains "]" nl)
            || contains "]" nl && negb (contains "[" nl)).
  - now intros [= <-].
  - destruct (match split1 "#" url1 with
              | Some (a, b) => (a, b)
              | None => (url1, EmptyString)
              end) as [url2 frag].
    destruct (match split1 "?" url2 with
              | Some (a, b) => (a, b)
              | None => (url2, EmptyString)
              end) as [url3 qry].
    discriminate.
Qed.

Lemma urlparse_raises (url d : string) (x : exn) :
  urlparse url d = Raise x -> x = ValueError.
Proof.
  unfold urlparse, urlsplit.
  destruct (split_scheme url) as [[sch rest]|].
  - destruct (split_rest sch rest) as [r|y] eqn:E; cbn [rbind].
    + destruct (if mem (sr_scheme r) uses_params && contains ";" (sr_path r)
                then splitparams (sr_path r) else (sr_path r, ""));
        discriminate.
    + intros [= <-]. now apply split_rest_raises in E.
  - destruct (split_rest d url) as [r|y] eqn:E; cbn [rbind].
    + destruct (if mem (sr_scheme r) uses_params && contains ";" (sr_path r)
                then splitparams (sr_path r) else (sr_path r, ""));
        discriminate.
    + intros [= <-]. now apply split_rest_raises in E.
Qed.

(** [urljoin] raises nothing but the [ValueError] of a malformed network
    location. *)
Lemma urljoin_raises (base url : string) (x : exn) :
  urljoin base url = Raise x -> x = ValueError.
Proof.
  unfold urljoin.
  destruct (negb (nonempty base)); [discriminate|].
  destruct (negb (nonempty url)); [discriminate|].
  destruct (urlparse base "") as [b|y] eqn:Eb; cbn [rbind].
  - destruct (urlparse url (scheme b)) as [u|y] eqn:Eu; cbn [rbind].
    + destruct (negb _ || negb _); [discriminate|].
      destruct (mem (scheme u) uses_netloc && nonempty (netloc u));
        [discriminate|].
      destruct (negb (nonempty (path u)) && negb (nonempty (params u)));
        discriminate.
    + intros [= <-]. now apply urlparse_raises in Eu.
  - intros [= <-]. now apply urlparse_raises in Eb.
Qed.


End ClientFacts.

Section PlainPaths.
Import urllib_parse.

Lemma split1_absent (c : ascii) (s : string) :
  contains c s = false -> split1 c s = None.
Proof.
  induction s as [|c' s IH]; [reflexivity|]. cbn [contains split1].
  destruct (Ascii.eqb c' c); [discriminate|]. cbn [orb].
  intros H. now rewrite (IH H).
Qed.

Lemma split_not_nil (c : ascii) (s : string) : split c s <> [].
Proof.
  destruct s as [|c' s]; [discriminate|]. cbn [split].
  destruct (split c s) as [|seg segs]; [discriminate|].
  destruct (Ascii.eqb c' c); discriminate.
Qed.

(** [c.join(s.split(c))] is [s]. *)
Lemma join_split (c : ascii) (s : string) : join c (split c s) = s.
Proof.
  induction s as [|c' s IH]; [reflexivity|]. cbn [split].
  destruct (split c s) as [|seg segs] eqn:E.
  - now elim (split_not_nil c s).
  - destruct (Ascii.eqb_spec c' c) as [->|Hne].
    + change (join c ("" :: seg :: segs)) with (String c (join c (seg :: segs))).
      now rewrite IH.
    + destruct segs as [|seg' segs].
      * cbn [join] in *. now rewrite IH.
      * change (join c (String c' seg :: seg' :: segs))
          with (String c' (seg ++ String c (join c (seg' :: segs)))).
        change (join c (seg :: seg' :: segs))
          with (seg ++ String c (join c (seg' :: segs))) in IH.
        now rewrite IH.
Qed.

Lemma resolve_plain (segments resolved : list string) :
  forallb (fun seg => negb (dot_segment seg)) segments = true ->
  resolve segments resolved = (rev resolved ++ segments)%list.
Proof.
  revert resolved. induction segments as [|seg segments IH];
    intros resolved H; cbn [resolve].
  - now rewrite app_nil_r.
  - cbn [forallb] in H. apply andb_true_iff in H as [Hseg H].
    unfold dot_segment in Hseg. apply negb_true_iff, orb_false_iff in Hseg.
    destruct Hseg as [H1 H2]. rewrite H1, H2, IH by assumption.
    cbn [rev]. now rewrite <- app_assoc.
Qed.

Lemma last_forallb {A : Type} (p : A -> bool) (l : list A) (d : A) :
  l <> [] -> forallb p l = true -> p (last l d) = true.
Proof.
  induction l as [|a l IH]; [congruence|]. intros _ H.
  cbn [forallb] in H. apply andb_true_iff in H as [Ha H].
  destruct l as [|b l]; [exact Ha|].
  change (last (a :: b :: l) d) with (last (b :: l) d).
  apply IH; [discriminate | exact H].
Qed.

Lemma plain_path_spec (url : string) :
  plain_path url = true ->
  starts1 url = true /\ starts2 url = false /\
  contains ":" url = false /\ contains "?" url = false /\
  contains "#" url = false /\ contains ";" url = false /\
  forallb (fun seg => negb (dot_segment seg)) (split "/" url) = true.
Proof.
  unfold plain_path. rewrite !andb_true_iff, !negb_true_iff. tauto.
Qed.

Lemma no_netloc_prefix (url : string) :
  starts2 url = false ->
  match url with
  | String "/" (String "/" rest) => span_netloc rest
  | _ => (EmptyString, url)
  end = (EmptyString, url).
Proof.
  destruct url as [|c1 [|c2 rest]]; try reflexivity.
  - destruct c1 as [[] [] [] [] [] [] [] []]; reflexivity.
  - destruct c1 as [[] [] [] [] [] [] [] []]; try reflexivity.
    destruct c2 as [[] [] [] [] [] [] [] []]; try reflexivity.
    discriminate.
Qed.

Lemma urlparse_plain_path (url sch : string) :
  plain_path url = true ->
  urlparse url sch = Ok (mkParseResult sch "" url "" "" "").
Proof.
  intros H. apply plain_path_spec in H as (_ & H2 & Hc & Hq & Hf & Hp & _).
  unfold urlparse, urlsplit, split_scheme, split_rest.
  rewrite (split1_absent ":" url Hc), (no_netloc_prefix url H2).
  cbn [contains andb orb negb].
  rewrite (split1_absent "#" url Hf), (split1_absent "?" url Hq).
  cbn [rbind sr_scheme sr_path sr_netloc sr_query sr_fragment].
  rewrite Hp, andb_false_r. reflexivity.
Qed.

Lemma merge_paths_plain (bpath url : string) :
  plain_path url = true -> merge_paths bpath url = url.
Proof.
  intros H. apply plain_path_spec in H as (H1 & _ & _ & _ & _ & _ & Hs).
  unfold merge_paths. rewrite H1.
  rewrite (resolve_plain _ [] Hs). cbn [rev app].
  pose proof (last_forallb _ (split "/" url) "" (split_not_nil "/" url) Hs)
    as Hl.
  unfold dot_segment in Hl. apply negb_true_iff, orb_false_iff in Hl.
  destruct Hl as [Hl1 Hl2]. rewrite Hl1, Hl2. cbn [orb].
  rewrite join_split.
  destruct url; [discriminate H1 | reflexivity].
Qed.

Lemma urljoin_plain_path (base url : string) (b : ParseResult) :
  urlparse base "" = Ok b ->
  nonempty (scheme b) = true -> nonempty (netloc b) = true ->
  mem (scheme b) uses_relative = true ->
  plain_path url = true ->
  urljoin base url = Ok (scheme b ++ "://" ++ netloc b ++ url).
Proof.
  intros Hb Hs Hn Hrel Hp.
  assert (Hbase : nonempty base = true).
  { destruct base; [|reflexivity]. cbv in Hb. injection Hb as <-.
    discriminate Hs. }
  assert (Hurl : nonempty url = true /\ starts1 url = true).
  { apply plain_path_spec in Hp as (H1 & _).
    destruct url; [discriminate H1 | auto]. }
  destruct Hurl as [Hurl H1].
  unfold urljoin. rewrite Hbase, Hurl, Hb. cbn [negb rbind].
  rewrite (urlparse_plain_path url (scheme b) Hp).
  cbn [rbind scheme netloc path params query fragment].
  rewrite String.eqb_refl, Hrel, (mem_relative_netloc _ Hrel).
  cbn [negb orb andb nonempty String.eqb].
  rewrite Hurl. cbn [negb andb].
  rewrite (merge_paths_plain (path b) url Hp).
  unfold urlunparse, urlunsplit.
  cbn [scheme netloc path params query fragment nonempty String.eqb negb].
  rewrite Hn, Hs, H1, Hurl. cbn [orb andb negb].
  reflexivity.
Qed.

End PlainPaths.



(** ** From construction to the manager *)

(** X17: a datapoint from construction to the manager.  [Datapoint(at,
    value)], then bound to a manager, then given a new value, holds
    exactly [at] and the new value; its [update] sends the manager [at] as
    identity and the new value alone as fields, and its [delete] sends
    [at]. *)
Theorem X17_datapoint_life (i : N) (k : manager_class) (p : N)
        (at_ v v' : value) :
  exists e w1 w2,
    new_Datapoint i at_ v = Ok e /\
    Base_setattr "_manager" (VManager k p) (mkworld e []) = (Ok tt, w1) /\
    Base_setattr "value" v' w1 = (Ok tt, w2) /\
    self w2 = mkentity cls_Datapoint i [("at", at_); ("value", v')]
                       [("_manager", VManager k p)] /\
    calls w2 = [] /\
    Datapoint_update w2
    = (Ok tt, with_call (call_update (VManager k p) at_ [("value", v')]) w2) /\
    Datapoint_delete w2
    = (Ok tt, with_call (call_delete (VManager k p) at_) w2).
Proof.
  do 3 eexists.
  split; [reflexivity|]. split; [reflexivity|]. split; [reflexivity|].
  split; [reflexivity|]. split; [reflexivity|]. split; reflexivity.
Qed.

Lemma Feed_store_lookup (title : value) (kwargs : dict) (k : string) :
  NoDup (dict_keys kwargs) ->
  dict_get "title" kwargs = None ->
  dict_get k
    (match dict_get "datastreams" kwargs with
     | Some datastreams =>
         dict_update (dict_set "datastreams" datastreams [("title", title)])
                     (dict_del "datastreams" kwargs)
     | None => dict_update [("title", title)] kwargs
     end)
  = if String.eqb k "title" then Some title else dict_get k kwargs.
Proof.
  intros Hnd Ht.
  destruct (dict_get "datastreams" kwargs) as [ds|] eqn:Hds.
  - rewrite dict_get_update by now apply dict_del_NoDup.
    destruct (String.eqb_spec k "title") as [->|Hk].
    + rewrite dict_get_del_neq, Ht by discriminate. reflexivity.
    + destruct (String.eqb_spec k "datastreams") as [->|Hne].
      * now rewrite dict_get_del_eq, Hds.
      * rewrite dict_get_del_neq by assumption.
        destruct (dict_get k kwargs); [reflexivity|].
        apply String.eqb_neq in Hk, Hne.
        cbn [dict_set dict_get String.eqb Ascii.eqb Bool.eqb].
        cbn [dict_get]. now rewrite Hk, Hne.
  - rewrite dict_get_update by assumption.
    destruct (String.eqb_spec k "title") as [->|Hk].
    + now rewrite Ht.
    + destruct (dict_get k kwargs); [reflexivity|].
      apply String.eqb_neq in Hk. cbn [dict_get]. now rewrite Hk.
Qed.

Lemma dict_pop_present {V : Type} (k : string) (v : V) (d : @dict_of V) :
  dict_get k d = Some v -> dict_pop k d = Ok (v, dict_del k d).
Proof. intros H. unfold dict_pop. now rewrite H. Qed.


